(** * proprietary-deduper: a verified model

    A shallow embedding of [proprietary-deduper.py], the tool that removes
    from a device proprietary-files list the entries already present in a
    common list, followed by the properties of its parser and of its
    filtering pass.

    Conventions of the embedding.
    - A Python [str] is a [string]; a character is a code point below 256.
    - A Python list is a [list]; [append] adds at the end, [pop] removes the
      last element.
    - [self.common_entries] is a [gset string].
    - The file system is a finite map from path names to nodes; standard
      output and the files opened are recorded in a trace of events.
    - [sys.exit] and uncaught exceptions are outcomes of a small state and
      exception monad. *)

From Stdlib Require Import Ascii String List ZArith Lia Bool.
From stdpp Require Import base strings gmap pretty.
Import ListNotations.

Local Open Scope string_scope.
Local Open Scope list_scope.

(** ** Python string primitives *)

Module Py.

Definition LF : ascii := "010"%char.
Definition CR : ascii := "013"%char.
Definition HASH : ascii := "#"%char.

(** [str.isspace] of one character, for code points below 256:
    U+0009..U+000D, U+001C..U+001F, U+0020, U+0085 and U+00A0. *)
Definition isspace (c : ascii) : bool :=
  match c with
  | "009" | "010" | "011" | "012" | "013"
  | "028" | "029" | "030" | "031" | " " | "133" | "160" => true
  | _ => false
  end%char.

(** Truth value of a string: non-empty. *)
Definition truthy (s : string) : bool :=
  match s with EmptyString => false | String _ _ => true end.

(** Truth value of a list: non-empty. *)
Definition truthy_list {A} (l : list A) : bool :=
  match l with [] => false | _ :: _ => true end.

(** [s.rstrip()] *)
Fixpoint rstrip (s : string) : string :=
  match s with
  | EmptyString => EmptyString
  | String c r =>
      let r' := rstrip r in
      if negb (truthy r') && isspace c then EmptyString else String c r'
  end.

(** [s.lstrip()] *)
Fixpoint lstrip (s : string) : string :=
  match s with
  | EmptyString => EmptyString
  | String c r => if isspace c then lstrip r else s
  end.

(** [s.strip()] *)
Definition strip (s : string) : string := rstrip (lstrip s).

(** [s.startswith(c)] for a one-character prefix. *)
Definition startswith (c : ascii) (s : string) : bool :=
  match s with
  | EmptyString => false
  | String d _ => bool_decide (d = c)
  end.

(** [sub in s] *)
Fixpoint str_in (sub s : string) : bool :=
  String.prefix sub s ||
  match s with
  | EmptyString => false
  | String _ r => str_in sub r
  end.

(** [s.split(sep)] for a one-character separator. *)
Fixpoint split (sep : ascii) (s : string) : list string :=
  match s with
  | EmptyString => [EmptyString]
  | String c r =>
      if bool_decide (c = sep) then EmptyString :: split sep r
      else match split sep r with
           | p :: ps => String c p :: ps
           | [] => [String c EmptyString]
           end
  end.

(** [s.split(sep, 1)] *)
Fixpoint split1 (sep : ascii) (s : string) : list string :=
  match s with
  | EmptyString => [EmptyString]
  | String c r =>
      if bool_decide (c = sep) then [EmptyString; r]
      else match split1 sep r with
           | p :: ps => String c p :: ps
           | [] => [String c EmptyString]
           end
  end.

(** [l[0]] on a list of strings that is known to be non-empty. *)
Definition item0 (l : list string) : string := hd EmptyString l.

(** [sep.join(l)] *)
Fixpoint join (sep : string) (l : list string) : string :=
  match l with
  | [] => EmptyString
  | [x] => x
  | x :: r => x +:+ sep +:+ join sep r
  end.

(** Universal-newline translation of a text-mode read: CR LF and a lone
    CR both become LF. *)
Fixpoint universal_newlines (s : string) : string :=
  match s with
  | EmptyString => EmptyString
  | String c r =>
      if bool_decide (c = CR) then
        match r with
        | String d r' =>
            if bool_decide (d = LF) then universal_newlines r
            else String LF (universal_newlines r)
        | EmptyString => String LF EmptyString
        end
      else String c (universal_newlines r)
  end.

(** Splitting after every LF, the terminators kept. *)
Fixpoint keepends (s : string) : list string :=
  match s with
  | EmptyString => []
  | String c r =>
      if bool_decide (c = LF) then String c EmptyString :: keepends r
      else match keepends r with
           | [] => [String c EmptyString]
           | l :: ls => String c l :: ls
           end
  end.

(** [f.read()] and [f.readlines()] of a file opened with mode ['r']. *)
Definition read (raw : string) : string := universal_newlines raw.
Definition readlines (raw : string) : list string := keepends (read raw).

(** Line boundaries of [str.splitlines] below code point 256. *)
Definition islinebreak (c : ascii) : bool :=
  match c with
  | "010" | "011" | "012" | "013" | "028" | "029" | "030" | "133" => true
  | _ => false
  end%char.

(** [s.splitlines()] *)
Fixpoint splitlines (s : string) : list string :=
  match s with
  | EmptyString => []
  | String c r =>
      if islinebreak c then
        match r with
        | String d r' =>
            if bool_decide (c = CR) && bool_decide (d = LF)
            then EmptyString :: splitlines r'
            else EmptyString :: splitlines r
        | EmptyString => [EmptyString]
        end
      else match splitlines r with
           | [] => [String c EmptyString]
           | l :: ls => String c l :: ls
           end
  end.

End Py.

(** ** Data model *)

(** The dataclass [Section]. *)
Record Section := mkSection { header : string; content : list string }.

(** What a path names. *)
Inductive node :=
| RegularFile (text : string)
| Directory.

(** What a run does to the outside: lines printed on standard output and
    files opened for reading or for writing. *)
Inductive event :=
| Print (line : string)
| OpenRead (path : string)
| OpenWrite (path : string) (text : string).

(** The fields of a [ProprietaryFileDeduplicator], as set by [__init__] and
    updated by its methods. *)
Record Deduplicator := mkDeduplicator {
  common_file : string;
  device_file : string;
  dry_run : bool;
  verbose : bool;
  common_entries : gset string;
  source_line : option string
}.

Record State := mkState {
  self : Deduplicator;
  fs : gmap string node;
  trace : list event
}.

(** ** The state and exception monad of a run *)

(** How a computation ends: with a value, by [sys.exit(code)], or by an
    exception that nothing catches. *)
Inductive outcome (A : Type) :=
| Return (a : A)
| SystemExit (code : Z)
| Raise (exc : string).

Arguments Return {A} a.
Arguments SystemExit {A} code.
Arguments Raise {A} exc.

Definition M (A : Type) : Type := State -> outcome A * State.

Definition ret {A} (a : A) : M A := fun s => (Return a, s).

Definition bind {A B} (m : M A) (k : A -> M B) : M B :=
  fun s =>
    match m s with
    | (Return a, s') => k a s'
    | (SystemExit c, s') => (SystemExit c, s')
    | (Raise e, s') => (Raise e, s')
    end.

#[global] Instance M_ret : MRet M := @ret.
#[global] Instance M_bind : MBind M := fun A B k m => bind m k.

Definition gets {A} (f : Deduplicator -> A) : M A :=
  fun s => (Return (f (self s)), s).

Definition emit (evs : list event) : M unit :=
  fun s => (Return tt, mkState (self s) (fs s) (trace s ++ evs)).

(** [print(line)] *)
Definition print (line : string) : M unit := emit [Print line].

(** [sys.exit(code)] *)
Definition sys_exit {A} (code : Z) : M A := fun s => (SystemExit code, s).

(** [Path.exists] and [Path.is_file] *)
Definition path_exists (p : string) : M bool :=
  fun s => (Return (match fs s !! p with Some _ => true | None => false end), s).

Definition path_is_file (p : string) : M bool :=
  fun s => (Return (match fs s !! p with
                    | Some (RegularFile _) => true
                    | _ => false
                    end), s).

(** [open(p, 'r')] followed by reading the whole file: the raw text. *)
Definition open_read (p : string) : M string :=
  fun s =>
    match fs s !! p with
    | Some (RegularFile text) =>
        (Return text, mkState (self s) (fs s) (trace s ++ [OpenRead p]))
    | Some Directory => (Raise "IsADirectoryError", s)
    | None => (Raise "FileNotFoundError", s)
    end.

(** [open(p, 'w')] followed by [f.write(text)]: the file is created or
    truncated, then holds [text]. *)
Definition open_write (p : string) (text : string) : M unit :=
  fun s =>
    match fs s !! p with
    | Some Directory => (Raise "IsADirectoryError", s)
    | _ => (Return tt,
            mkState (self s) (<[p := RegularFile text]> (fs s))
                    (trace s ++ [OpenWrite p text]))
    end.

Definition set_source_line (l : string) : M unit :=
  fun s =>
    let d := self s in
    (Return tt,
     mkState (mkDeduplicator (common_file d) (device_file d) (dry_run d)
                             (verbose d) (common_entries d) (Some l))
             (fs s) (trace s)).

Definition set_common_entries (ce : gset string) : M unit :=
  fun s =>
    let d := self s in
    (Return tt,
     mkState (mkDeduplicator (common_file d) (device_file d) (dry_run d)
                             (verbose d) ce (source_line d))
             (fs s) (trace s)).

(** [for x in l: body(x)] *)
Fixpoint for_each {A} (l : list A) (body : A -> M unit) : M unit :=
  match l with
  | [] => mret tt
  | x :: r => body x;; for_each r body
  end.

(** ** The colours of colorama, as the ANSI sequences it defines *)

Definition ESC : ascii := "027"%char.
Definition Fore_RED : string := String ESC "[31m".
Definition Fore_GREEN : string := String ESC "[32m".
Definition Fore_CYAN : string := String ESC "[36m".
Definition Style_RESET_ALL : string := String ESC "[0m".

(** ** The methods of [ProprietaryFileDeduplicator] *)

(** [__init__]: the four arguments, an empty set and no source line. *)
Definition init (common device : string) (dry verb : bool) : Deduplicator :=
  mkDeduplicator common device dry verb ∅ None.

(** The line [log] prints. *)
Definition info (message : string) : string :=
  Fore_GREEN +:+ "[INFO]" +:+ Style_RESET_ALL +:+ " " +:+ message.

(** What [log(message, is_verbose)] prints under a given [self.verbose]. *)
Definition log_lines (verb : bool) (message : string) (is_verbose : bool)
  : list string :=
  if negb is_verbose || (is_verbose && verb) then [info message] else [].

Definition log (message : string) (is_verbose : bool) : M unit :=
  verb ← gets verbose;
  emit (map Print (log_lines verb message is_verbose)).

Definition validate_files : M unit :=
  c ← gets common_file;
  d ← gets device_file;
  for_each [c; d] (fun file_path =>
    e ← path_exists file_path;
    (if negb e then
       print (Fore_RED +:+ "[ERROR]" +:+ Style_RESET_ALL +:+
              " File not found: " +:+ file_path);;
       sys_exit 1%Z
     else mret tt);;
    f ← path_is_file file_path;
    if negb f then
      print (Fore_RED +:+ "[ERROR]" +:+ Style_RESET_ALL +:+
             " Not a file: " +:+ file_path);;
      sys_exit 1%Z
    else mret tt).

(** The locals of the loop of [parse_file]. *)
Definition parse_locals : Type := list Section * option Section.

(** One turn of [for line in lines]. A [Section] object is always true, so
    [if current_section] asks whether one is open. *)
Definition parse_line (st : parse_locals) (line : string) : parse_locals :=
  let '(sections, current_section) := st in
  let line := Py.rstrip line in
  if Py.startswith Py.HASH line then
    (match current_section with
     | Some cs => sections ++ [cs]
     | None => sections
     end,
     Some (mkSection line []))
  else
    match current_section with
    | Some cs =>
        if Py.truthy (Py.strip line)
        then (sections, Some (mkSection (header cs) (content cs ++ [line])))
        else st
    | None => st
    end.

(** The loop of [parse_file] and the test after it. *)
Definition parse_lines (lines : list string) : list Section :=
  let '(sections, current_section) := fold_left parse_line lines ([], None) in
  match current_section with
  | Some cs =>
      if Py.truthy_list (content cs) || Py.truthy (header cs)
      then sections ++ [cs] else sections
  | None => sections
  end.

Definition MARKER : string := "extracted from".

(** [if lines and "extracted from" in lines[0]] *)
Definition has_source_line (lines : list string) : bool :=
  Py.truthy_list lines && Py.str_in MARKER (Py.item0 lines).

Definition parse_file (file_path : string) : M (list Section) :=
  raw ← open_read file_path;
  let lines := Py.readlines raw in
  lines ← (if has_source_line lines
           then set_source_line (Py.item0 lines);; mret (tl lines)
           else mret lines);
  mret (parse_lines lines).

(** [line.split('#')[0].strip()] *)
Definition common_entry (line : string) : string :=
  Py.strip (Py.item0 (Py.split Py.HASH line)).

(** The two loops of [load_common_entries]. *)
Definition add_line (ce : gset string) (line : string) : gset string :=
  let entry := common_entry line in
  if Py.truthy entry then {[entry]} ∪ ce else ce.

Definition add_sections (ce : gset string) (sections : list Section)
  : gset string :=
  fold_left (fun ce section => fold_left add_line (content section) ce)
            sections ce.

Definition load_common_entries : M unit :=
  c ← gets common_file;
  sections ← parse_file c;
  ce ← gets common_entries;
  set_common_entries (add_sections ce sections);;
  ce ← gets common_entries;
  log ("Loaded " +:+ pretty (size ce) +:+ " entries from common file") true.

(** [parts = line.split('#', 1); entry = parts[0].strip()] *)
Definition device_entry (line : string) : string :=
  Py.strip (Py.item0 (Py.split1 Py.HASH line)).

(** The locals of the inner loop of [process_device_file]: the filtered
    content, the count of removed lines and the lines printed by [log]. *)
Definition filter_locals : Type := list string * nat * list string.

Definition filter_line (ce : gset string) (verb : bool)
    (st : filter_locals) (line : string) : filter_locals :=
  let '(filtered_content, removed_count, printed) := st in
  let entry := device_entry line in
  if bool_decide (entry ∈ ce) then
    (filtered_content, S removed_count,
     printed ++ log_lines verb ("Removing duplicate: " +:+ line) true)
  else (filtered_content ++ [line], removed_count, printed).

(** The locals of the outer loop: the output lines, the count and the lines
    printed. *)
Definition process_locals : Type := list string * nat * list string.

(** One turn of [for section in sections]. *)
Definition process_section (ce : gset string) (verb : bool)
    (st : process_locals) (section : Section) : process_locals :=
  let '(output_lines, removed_count, printed) := st in
  if Py.truthy_list (content section) then
    let output_lines := output_lines ++ [header section] in
    let '(filtered_content, removed_count, printed) :=
      fold_left (filter_line ce verb) (content section)
                ([], removed_count, printed) in
    if Py.truthy_list filtered_content then
      (output_lines ++ filtered_content ++ [""], removed_count, printed)
    else (List.removelast output_lines, removed_count, printed)
  else st.

(** [while output_lines and not output_lines[-1]: output_lines.pop()],
    with one unit of fuel for each turn. *)
Fixpoint pop_trailing (fuel : nat) (output_lines : list string) : list string :=
  match fuel with
  | O => output_lines
  | S fuel' =>
      if Py.truthy_list output_lines && negb (Py.truthy (List.last output_lines ""))
      then pop_trailing fuel' (List.removelast output_lines)
      else output_lines
  end.

(** The lines put first when [self.source_line] is true. *)
Definition source_lines (src : option string) : list string :=
  match src with
  | Some l => if Py.truthy l then [Py.rstrip l; ""] else []
  | None => []
  end.

(** The body of [process_device_file] after the parse: the output lines
    after the trailing empty ones are removed, the count, the lines
    printed by [log] in the loop. *)
Definition process_sections (ce : gset string) (verb : bool)
    (src : option string) (sections : list Section) : process_locals :=
  let '(output_lines, removed_count, printed) :=
    fold_left (process_section ce verb) sections (source_lines src, O, []) in
  (pop_trailing (length output_lines) output_lines, removed_count, printed).

(** ['\n'.join(output_lines) + '\n'] *)
Definition render (output_lines : list string) : string :=
  Py.join (String Py.LF "") output_lines +:+ String Py.LF "".

Definition process_device_file : M string :=
  d ← gets device_file;
  sections ← parse_file d;
  ce ← gets common_entries;
  verb ← gets verbose;
  src ← gets source_line;
  let '(output_lines, removed_count, printed) :=
    process_sections ce verb src sections in
  emit (map Print printed);;
  log ("Found " +:+ pretty removed_count +:+ " duplicates to remove") false;;
  mret (render output_lines).

(** The lines [show_diff] prints after its heading. *)
Definition diff_lines (ce : gset string) (old_content : string) : list string :=
  flat_map (fun line =>
              let line_content := common_entry line in
              if bool_decide (line_content ∈ ce)
              then [Fore_RED +:+ "- " +:+ line +:+ Style_RESET_ALL]
              else [])
           (Py.splitlines old_content).

Definition show_diff (new_content : string) : M unit :=
  d ← gets device_file;
  raw ← open_read d;
  let old_content := Py.read raw in
  print (String Py.LF "" +:+ Fore_CYAN +:+ "Changes to be made:" +:+
         Style_RESET_ALL);;
  ce ← gets common_entries;
  emit (map Print (diff_lines ce old_content)).

Definition deduplicate : M unit :=
  validate_files;;
  load_common_entries;;
  new_content ← process_device_file;
  dry ← gets dry_run;
  if dry : bool then
    show_diff new_content;;
    log "Dry run - no changes made" false
  else
    d ← gets device_file;
    open_write d new_content;;
    log "Successfully removed duplicates" false.

(** [main] once the arguments are parsed: the exit status of the process
    and the state it leaves. An uncaught exception ends the process with
    status 1. *)
Definition main (common device : string) (dry verb : bool)
    (files : gmap string node) : Z * State :=
  match deduplicate (mkState (init common device dry verb) files []) with
  | (Return _, s) => (0%Z, s)
  | (SystemExit code, s) => (code, s)
  | (Raise _, s) => (1%Z, s)
  end.

(** ** The run as a function of the two texts

    What the methods compute, stated on the raw texts of the common file
    and of the device file. *)

(** The source line [parse_file] finds, and the lines it goes on with. *)
Definition found_source (lines : list string) : option string :=
  if has_source_line lines then Some (Py.item0 lines) else None.

Definition body_lines (lines : list string) : list string :=
  if has_source_line lines then tl lines else lines.

(** [self.common_entries] after [load_common_entries]. *)
Definition load_common (common_raw : string) : gset string :=
  add_sections ∅ (parse_lines (body_lines (Py.readlines common_raw))).

(** [self.source_line] after both files are parsed: each parse that finds
    a source line assigns it, the device file is parsed last. *)
Definition final_source (common_raw device_raw : string) : option string :=
  match found_source (Py.readlines device_raw) with
  | Some l => Some l
  | None => found_source (Py.readlines common_raw)
  end.

(** The sections of the device file. *)
Definition device_sections (device_raw : string) : list Section :=
  parse_lines (body_lines (Py.readlines device_raw)).

(** The output lines, the count and the lines logged by the filtering. *)
Definition filter_device (common_raw device_raw : string) (verb : bool)
  : process_locals :=
  process_sections (load_common common_raw) verb
                   (final_source common_raw device_raw)
                   (device_sections device_raw).

(** The text written to the device file, and the count reported. *)
Definition output_text (common_raw device_raw : string) : string :=
  render (filter_device common_raw device_raw false).1.1.

Definition removed_total (common_raw device_raw : string) : nat :=
  (filter_device common_raw device_raw false).1.2.

(** What [validate_files] prints before it exits, if it does. *)
Definition path_error (files : gmap string node) (p : string) : option string :=
  match files !! p with
  | None =>
      Some (Fore_RED +:+ "[ERROR]" +:+ Style_RESET_ALL +:+
            " File not found: " +:+ p)
  | Some Directory =>
      Some (Fore_RED +:+ "[ERROR]" +:+ Style_RESET_ALL +:+
            " Not a file: " +:+ p)
  | Some (RegularFile _) => None
  end.

Definition validation_error (files : gmap string node) (c d : string)
  : option string :=
  match path_error files c with
  | Some m => Some m
  | None => path_error files d
  end.

(** The trace of a run that passes the validation. *)
Definition run_trace (c d : string) (dry verb : bool)
    (common_raw device_raw : string) : list event :=
  let ce := load_common common_raw in
  let '(output_lines, removed_count, printed) :=
    filter_device common_raw device_raw verb in
  [OpenRead c] ++
  map Print (log_lines verb ("Loaded " +:+ pretty (size ce) +:+
                             " entries from common file") true) ++
  [OpenRead d] ++
  map Print printed ++
  [Print (info ("Found " +:+ pretty removed_count +:+
                " duplicates to remove"))] ++
  (if dry then
     [OpenRead d;
      Print (String Py.LF "" +:+ Fore_CYAN +:+ "Changes to be made:" +:+
             Style_RESET_ALL)] ++
     map Print (diff_lines ce (Py.read device_raw)) ++
     [Print (info "Dry run - no changes made")]
   else
     [OpenWrite d (render output_lines);
      Print (info "Successfully removed duplicates")]).

(** [self.source_line] after a parse that found [found]. *)
Definition or_source (found old : option string) : option string :=
  match found with Some l => Some l | None => old end.

(** The sections known to the loop of [parse_file] after a prefix of the
    input, the open one last; the open one with more content. *)
Definition close (st : parse_locals) : list Section :=
  st.1 ++ match st.2 with Some cs => [cs] | None => [] end.

Definition extend (cur : option Section) (pre : list string) : list Section :=
  match cur with
  | Some cs => [mkSection (header cs) (content cs ++ pre)]
  | None => []
  end.

(** ** Notions used to state the properties *)

(** A line that opens a section, a line that is skipped. *)
Definition is_header (line : string) : bool :=
  Py.startswith Py.HASH (Py.rstrip line).

Definition is_blank (line : string) : bool :=
  negb (Py.truthy (Py.strip (Py.rstrip line))).

(** Lines cut at the headers: a header and the lines up to the next one. *)
Definition block : Type := string * list string.

Definition block_lines (b : block) : list string := b.1 :: b.2.

Definition well_cut (pre : list string) (blocks : list block) : Prop :=
  Forall (fun l => is_header l = false) pre /\
  Forall (fun b => is_header b.1 = true /\
                   Forall (fun l => is_header l = false) b.2) blocks.

(** The stored form of a list of lines under a header: each line without
    its trailing white space, the blank ones left out. *)
Definition stored (lines : list string) : list string :=
  map Py.rstrip (List.filter (fun l => negb (is_blank l)) lines).

Definition section_of_block (b : block) : Section :=
  mkSection (Py.rstrip b.1) (stored b.2).

(** The lines before the first header, in stored form, and the sections
    after it, read from the end of the input. *)
Fixpoint sections_of (lines : list string) : list string * list Section :=
  match lines with
  | [] => ([], [])
  | line :: rest =>
      let '(pre, secs) := sections_of rest in
      if is_header line then ([], mkSection (Py.rstrip line) pre :: secs)
      else if is_blank line then (pre, secs)
      else (Py.rstrip line :: pre, secs)
  end.

(** The cut of a list of lines. *)
Fixpoint cut (lines : list string) : list string * list block :=
  match lines with
  | [] => ([], [])
  | line :: rest =>
      let '(pre, blocks) := cut rest in
      if is_header line then ([], (line, pre) :: blocks)
      else (line :: pre, blocks)
  end.

(** The part of a line before its first ['#']. *)
Fixpoint before_hash (line : string) : string :=
  match line with
  | EmptyString => EmptyString
  | String c r =>
      if bool_decide (c = Py.HASH) then EmptyString
      else String c (before_hash r)
  end.

(** The Entry of a line. *)
Definition Entry (line : string) : string := Py.strip (before_hash line).

(** A content line that the filtering removes, the lines it keeps. *)
Definition duplicate (ce : gset string) (line : string) : bool :=
  bool_decide (device_entry line ∈ ce).

Definition kept (ce : gset string) (lines : list string) : list string :=
  List.filter (fun l => negb (duplicate ce l)) lines.

Definition removed (ce : gset string) (lines : list string) : list string :=
  List.filter (duplicate ce) lines.

(** What a section adds to the output lines. *)
Definition contribution (ce : gset string) (s : Section) : list string :=
  match kept ce (content s) with
  | [] => []
  | _ :: _ => header s :: kept ce (content s) ++ [""]
  end.

(** All the lines the filtering removes, and what [log] prints for them. *)
Definition removed_lines (ce : gset string) (secs : list Section) : list string :=
  flat_map (fun s => removed ce (content s)) secs.

Definition removal_log (verb : bool) (lines : list string) : list string :=
  flat_map (fun l => log_lines verb ("Removing duplicate: " +:+ l) true) lines.

(** The content lines of all the sections, and those the filtering keeps. *)
Definition all_content (secs : list Section) : list string :=
  flat_map content secs.

Definition kept_lines (ce : gset string) (secs : list Section) : list string :=
  flat_map (fun s => kept ce (content s)) secs.

(** The sections that are left after the filtering. *)
Definition survivors (ce : gset string) (secs : list Section) : list Section :=
  flat_map (fun s => match kept ce (content s) with
                     | [] => []
                     | _ :: _ => [mkSection (header s) (kept ce (content s))]
                     end) secs.

(** An output line that is an entry line: not empty, not a header. *)
Definition entry_line (l : string) : bool :=
  Py.truthy l && negb (Py.startswith Py.HASH l).

(** The entry lines of the output, the lines of the source line set
    aside. *)
Definition output_entries (src : option string) (output_lines : list string)
  : list string :=
  List.filter entry_line (skipn (length (source_lines src)) output_lines).

(** A path that names a regular file. *)
Definition is_regular (files : gmap string node) (p : string) : bool :=
  match files !! p with Some (RegularFile _) => true | _ => false end.

(** The files a trace writes, the files it reads. *)
Definition writes (tr : list event) : list event :=
  List.filter (fun e => match e with OpenWrite _ _ => true | _ => false end) tr.

Definition reads (tr : list event) : list event :=
  List.filter (fun e => match e with OpenRead _ => true | _ => false end) tr.

(** A line with its terminator. *)
Definition terminated (l : string) : string := l +:+ String Py.LF "".

(** A list of lines without its empty lines at the end. *)
Fixpoint strip_blank_tail (lines : list string) : list string :=
  match lines with
  | [] => []
  | x :: r =>
      match strip_blank_tail r with
      | [] => if Py.truthy x then [x] else []
      | r' => x :: r'
      end
  end.

(** A string without line feed and without carriage return. *)
Fixpoint no_newline (s : string) : bool :=
  match s with
  | EmptyString => true
  | String c r =>
      negb (bool_decide (c = Py.LF)) && negb (bool_decide (c = Py.CR)) &&
      no_newline r
  end.

(** A string without carriage return. *)
Fixpoint no_cr (s : string) : bool :=
  match s with
  | EmptyString => true
  | String c r => negb (bool_decide (c = Py.CR)) && no_cr r
  end.

(** The shape of a stored content line and of a stored header. *)
Definition content_line (l : string) : Prop :=
  Py.rstrip l = l /\ Py.startswith Py.HASH l = false /\
  Py.truthy (Py.strip l) = true.

Definition header_line (h : string) : Prop :=
  Py.rstrip h = h /\ Py.startswith Py.HASH h = true.

Definition well_formed (s : Section) : Prop :=
  header_line (header s) /\ Forall content_line (content s).

(** A section whose lines hold no line terminator. *)
Definition clean (s : Section) : Prop :=
  no_newline (header s) = true /\
  Forall (fun l => no_newline l = true) (content s).

(** What holds of a source line that was read from a file. *)
Definition source_ok (src : option string) : Prop :=
  match src with
  | Some l => Py.str_in MARKER l = true /\ no_newline (Py.rstrip l) = true
  | None => True
  end.

(** ** Example files *)

Definition nl : string := String Py.LF "".

(** A device file with a stray first line, an empty section, a blank line
    and an entry with a comment and trailing white space. *)
Definition parse_example : string :=
  "stray" +:+ nl +:+ "#audio" +:+ nl +:+ nl +:+ "#camera" +:+ nl +:+
  "lib/cam.so  # hal  " +:+ nl.

Definition parse_example_state : State :=
  mkState (init "common.txt" "device.txt" false false)
          {["device.txt" := RegularFile parse_example]} [].

(** The concrete scenario of a full elision: the same single section with
    the same single entry in both files. *)
Definition elision_common : string := "#comment" +:+ nl +:+ "lib/foo.so".
Definition elision_device : string := "#comment" +:+ nl +:+ "lib/foo.so".

(** A device file with a source line whose only section is in the common
    file. *)
Definition stock_common : string :=
  "#audio" +:+ nl +:+ "lib/audio.so" +:+ nl.
Definition stock_device : string :=
  "# extracted from stock" +:+ nl +:+ nl +:+
  "#audio" +:+ nl +:+ "lib/audio.so  # hal" +:+ nl.

(** A device file with an entry line that is only a comment. *)
Definition note_device : string :=
  "#audio" +:+ nl +:+ "  # vendor copy" +:+ nl +:+ "lib/audio.so" +:+ nl.

(** A device file that starts with a blank line and whose first header
    holds the words of a source line. *)
Definition rerun_device : string :=
  nl +:+ "# camera blobs extracted from stock" +:+ nl +:+
  "lib/cam.so" +:+ nl.

(** The concrete scenario of a partial elision. *)
Definition partial_common : string :=
  "#comment" +:+ nl +:+ "lib/foo.so" +:+ nl +:+ "lib/bar.so".
Definition partial_device : string :=
  "#comment" +:+ nl +:+ "lib/foo.so" +:+ nl +:+ "lib/baz.so".


(** File systems: the two files of the full elision; a common file with a
    source line and a device file without; one file given for both
    arguments. *)
Definition elision_files : gmap string node :=
  {["common.txt" := RegularFile elision_common;
    "device.txt" := RegularFile elision_device]}.



(** ** Further notions *)

(** A string without ['#']. *)
Fixpoint no_hash (s : string) : bool :=
  match s with
  | EmptyString => true
  | String c r => negb (bool_decide (c = Py.HASH)) && no_hash r
  end.


(** A list of lines without two empty lines in a row. *)
Fixpoint no_double_blank (lines : list string) : bool :=
  match lines with
  | [] => true
  | x :: r =>
      match r with
      | [] => true
      | y :: _ => Py.truthy x || Py.truthy y
      end && no_double_blank r
  end.

(** The header lines of the output, the lines of the source line set
    aside. *)
Definition output_headers (src : option string) (output_lines : list string)
  : list string :=
  List.filter (Py.startswith Py.HASH)
              (skipn (length (source_lines src)) output_lines).

(** A list of lines that does not start with an empty line. *)
Definition starts_truthy (lines : list string) : Prop :=
  match lines with [] => True | y :: _ => Py.truthy y = true end.

(** A section with a content line that the filtering keeps. *)
Definition survives (ce : gset string) (s : Section) : bool :=
  negb (forallb (duplicate ce) (content s)).

(** The line [show_diff] prints for a line of the old content. *)
Definition diff_line (line : string) : string :=
  Fore_RED +:+ "- " +:+ line +:+ Style_RESET_ALL.

(** The sections of the common file. *)
Definition common_sections (common_raw : string) : list Section :=
  parse_lines (body_lines (Py.readlines common_raw)).

(** A device file without any header, and a file system where the common
    path names a directory and the device path used with it is missing. *)
Definition headerless_device : string :=
  "lib/audio.so" +:+ nl +:+ "lib/cam.so" +:+ nl.


(** * Facts about the string primitives *)

Module PyFacts.
Import Py.

Lemma sapp_empty (t : string) : "" +:+ t = t.
Proof. reflexivity. Qed.

Lemma sapp_cons (c : ascii) (s t : string) :
  String c s +:+ t = String c (s +:+ t).
Proof. reflexivity. Qed.

Lemma sapp_assoc (s t u : string) : (s +:+ t) +:+ u = s +:+ t +:+ u.
Proof. induction s as [|c s IH]; [reflexivity|]. rewrite !sapp_cons. by f_equal. Qed.

Lemma truthy_false (s : string) : truthy s = false -> s = "".
Proof. by destruct s. Qed.

Lemma truthy_true (s : string) : truthy s = true <-> s <> "".
Proof. destruct s; simpl; split; congruence. Qed.

Lemma rstrip_cons (c : ascii) (s : string) :
  rstrip (String c s) =
  if negb (truthy (rstrip s)) && isspace c then "" else String c (rstrip s).
Proof. reflexivity. Qed.

Lemma rstrip_idemp (s : string) : rstrip (rstrip s) = rstrip s.
Proof.
  induction s as [|c s IH]; [reflexivity|].
  rewrite rstrip_cons.
  destruct (truthy (rstrip s)) eqn:E, (isspace c) eqn:F; simpl;
    rewrite ?IH, ?E, ?F; reflexivity.
Qed.

(** A white-space character at the end is stripped. *)
Lemma rstrip_snoc_space (c : ascii) (s : string) :
  isspace c = true -> rstrip (s +:+ String c "") = rstrip s.
Proof.
  intros Hc. induction s as [|d s IH].
  - rewrite sapp_empty. simpl. by rewrite Hc.
  - rewrite sapp_cons, !rstrip_cons, IH. reflexivity.
Qed.

Lemma rstrip_lf (s : string) : rstrip (s +:+ String LF "") = rstrip s.
Proof. by apply rstrip_snoc_space. Qed.

(** Stripping on the right keeps the first character when anything is
    left. *)
Lemma startswith_rstrip (c : ascii) (s : string) :
  startswith c (rstrip s) = truthy (rstrip s) && startswith c s.
Proof.
  destruct s as [|d s]; [reflexivity|].
  rewrite rstrip_cons.
  destruct (negb (truthy (rstrip s)) && isspace d); reflexivity.
Qed.

Lemma lstrip_rstrip_empty (s : string) :
  rstrip s = "" -> rstrip (lstrip s) = "".
Proof.
  induction s as [|c s IH]; [reflexivity|].
  rewrite rstrip_cons. simpl lstrip.
  destruct (truthy (rstrip s)) eqn:E; simpl.
  - discriminate.
  - destruct (isspace c) eqn:F; [|discriminate].
    intros _. apply IH. by apply truthy_false.
Qed.

(** [strip] sees through a previous [rstrip]. *)
Lemma lstrip_rstrip (s : string) : lstrip (rstrip s) = rstrip (lstrip s).
Proof.
  induction s as [|c s IH]; [reflexivity|].
  rewrite rstrip_cons. simpl lstrip.
  destruct (truthy (rstrip s)) eqn:E, (isspace c) eqn:F; simpl;
    rewrite ?F, ?E; simpl; rewrite ?F; try reflexivity.
  - exact IH.
  - symmetry. apply lstrip_rstrip_empty. by apply truthy_false.
Qed.

Lemma strip_rstrip (s : string) : strip (rstrip s) = strip s.
Proof. unfold strip. by rewrite lstrip_rstrip, rstrip_idemp. Qed.

Lemma split_nonempty (sep : ascii) (s : string) : split sep s <> [].
Proof.
  destruct s as [|c s]; simpl; [done|].
  destruct (bool_decide (c = sep)); [done|].
  by destruct (split sep s).
Qed.

(** The first piece does not depend on the number of splits. *)
Lemma item0_split1 (sep : ascii) (s : string) :
  item0 (split1 sep s) = item0 (split sep s).
Proof.
  induction s as [|c s IH]; [reflexivity|]. simpl.
  destruct (bool_decide (c = sep)); [reflexivity|].
  destruct (split1 sep s) as [|p ps], (split sep s) as [|q qs];
    simpl in *; congruence.
Qed.

End PyFacts.


(** * The parser *)

Module ParserFacts.
Import Py PyFacts.

Lemma is_blank_strip (line : string) :
  is_blank line = negb (truthy (strip line)).
Proof. unfold is_blank. by rewrite strip_rstrip. Qed.

Lemma parse_line_header secs cur line :
  is_header line = true ->
  parse_line (secs, cur) line =
  (secs ++ match cur with Some cs => [cs] | None => [] end,
   Some (mkSection (rstrip line) [])).
Proof.
  unfold is_header, parse_line. intros ->.
  destruct cur; [reflexivity|]. by rewrite app_nil_r.
Qed.

Lemma parse_line_content secs cur line :
  is_header line = false -> is_blank line = false ->
  parse_line (secs, cur) line =
  (secs, match cur with
         | Some cs => Some (mkSection (header cs) (content cs ++ [rstrip line]))
         | None => None
         end).
Proof.
  unfold is_header, is_blank, parse_line. intros -> Hb.
  apply negb_false_iff in Hb. rewrite Hb. by destruct cur.
Qed.

Lemma parse_line_blank st line :
  is_header line = false -> is_blank line = true ->
  parse_line st line = st.
Proof.
  destruct st as [secs cur].
  unfold is_header, is_blank, parse_line. intros -> Hb.
  apply negb_true_iff in Hb. rewrite Hb. by destruct cur.
Qed.

(** The loop, read from the end of the input. *)
Lemma parse_loop lines : forall secs cur,
  close (fold_left parse_line lines (secs, cur)) =
  secs ++ extend cur (sections_of lines).1 ++ (sections_of lines).2.
Proof.
  induction lines as [|line lines IH]; intros secs cur.
  - simpl. unfold close; simpl. destruct cur as [[h c]|]; simpl;
      by rewrite ?app_nil_r.
  - cbn [fold_left sections_of].
    destruct (sections_of lines) as [pre found] eqn:E.
    destruct (is_header line) eqn:Hh.
    + rewrite parse_line_header by done. rewrite IH. simpl.
      destruct cur as [[h c]|]; simpl; by rewrite <- ?app_assoc, ?app_nil_r.
    + destruct (is_blank line) eqn:Hb.
      * rewrite parse_line_blank by done. by rewrite IH.
      * rewrite parse_line_content by done. rewrite IH. simpl.
        destruct cur as [[h c]|]; simpl; by rewrite <- ?app_assoc.
Qed.

(** The section that is open has a header. *)
Lemma open_header lines : forall st cs,
  (forall c0, st.2 = Some c0 -> truthy (header c0) = true) ->
  (fold_left parse_line lines st).2 = Some cs ->
  truthy (header cs) = true.
Proof.
  induction lines as [|line lines IH]; intros [secs cur] cs Hst;
    cbn [fold_left].
  - intros H. by apply Hst.
  - apply IH. intros c0.
    destruct (is_header line) eqn:Hh.
    + rewrite parse_line_header by done. simpl. intros [= <-]. simpl.
      unfold is_header in Hh. by destruct (rstrip line).
    + destruct (is_blank line) eqn:Hb.
      * rewrite parse_line_blank by done. apply Hst.
      * rewrite parse_line_content by done. simpl.
        destruct cur as [c1|]; [|done]. intros [= <-]. simpl.
        by apply Hst.
Qed.

Lemma parse_lines_close lines :
  parse_lines lines = close (fold_left parse_line lines ([], None)).
Proof.
  unfold parse_lines, close.
  pose proof (open_header lines ([], None)) as H.
  destruct (fold_left parse_line lines ([], None)) as [secs [cs|]]; simpl.
  - rewrite (H cs), orb_true_r; done.
  - by rewrite app_nil_r.
Qed.

Lemma parse_lines_sections_of lines :
  parse_lines lines = (sections_of lines).2.
Proof. by rewrite parse_lines_close, parse_loop. Qed.

(** Every list of lines has a cut, and only one. *)
Lemma cut_lines lines :
  lines = (cut lines).1 ++ flat_map block_lines (cut lines).2.
Proof.
  induction lines as [|line lines IH]; [reflexivity|]. simpl.
  destruct (cut lines) as [pre blocks]; simpl in *.
  destruct (is_header line); simpl; by rewrite IH at 1.
Qed.

Lemma cut_well_cut lines : well_cut (cut lines).1 (cut lines).2.
Proof.
  induction lines as [|line lines IH]; [by split|]. simpl.
  destruct (cut lines) as [pre blocks]; destruct IH as [Hp Hb]; simpl in *.
  destruct (is_header line) eqn:Hh; simpl; split; auto.
Qed.

Lemma cut_no_header pre lines :
  Forall (fun l => is_header l = false) pre ->
  cut (pre ++ lines) = (pre ++ (cut lines).1, (cut lines).2).
Proof.
  induction 1 as [|l pre Hl _ IH]; simpl; [by destruct (cut lines)|].
  by rewrite IH, Hl.
Qed.

Lemma cut_unique pre blocks :
  well_cut pre blocks ->
  cut (pre ++ flat_map block_lines blocks) = (pre, blocks).
Proof.
  intros [Hp Hb]. rewrite cut_no_header by done. clear Hp.
  enough (cut (flat_map block_lines blocks) = ([], blocks)) as ->
    by (simpl; by rewrite app_nil_r).
  induction Hb as [|[h b] blocks [Hh Hbody] _ IH]; [reflexivity|].
  simpl in *. rewrite cut_no_header, IH by done. simpl.
  by rewrite Hh, app_nil_r.
Qed.

(** The sections are the blocks of the cut, in stored form. *)
Lemma sections_of_cut lines :
  sections_of lines =
  (stored (cut lines).1, map section_of_block (cut lines).2).
Proof.
  induction lines as [|line lines IH]; [reflexivity|]. simpl.
  rewrite IH. destruct (cut lines) as [pre blocks]; simpl.
  destruct (is_header line) eqn:Hh; [reflexivity|].
  unfold stored; simpl. by destruct (is_blank line).
Qed.

Lemma parse_lines_cut pre blocks :
  well_cut pre blocks ->
  parse_lines (pre ++ flat_map block_lines blocks) =
  map section_of_block blocks.
Proof.
  intros H. by rewrite parse_lines_sections_of, sections_of_cut, cut_unique.
Qed.

(** The shape of what is stored. *)
Lemma sections_of_well_formed lines :
  Forall content_line (sections_of lines).1 /\
  Forall well_formed (sections_of lines).2.
Proof.
  induction lines as [|line lines [IHp IHs]]; [by split|]. simpl.
  destruct (sections_of lines) as [pre secs]; simpl in *.
  destruct (is_header line) eqn:Hh; simpl.
  - split; [done|]. constructor; [|done].
    split; [|done]. split; simpl; [apply rstrip_idemp|exact Hh].
  - destruct (is_blank line) eqn:Hb; simpl; [by split|].
    split; [|done]. constructor; [|done].
    repeat split; [apply rstrip_idemp|exact Hh|].
    by apply negb_false_iff in Hb.
Qed.

Lemma parse_lines_well_formed lines : Forall well_formed (parse_lines lines).
Proof. rewrite parse_lines_sections_of. apply sections_of_well_formed. Qed.

Lemma sections_of_clean lines :
  Forall (fun l => no_newline (rstrip l) = true) lines ->
  Forall (fun l => no_newline l = true) (sections_of lines).1 /\
  Forall clean (sections_of lines).2.
Proof.
  induction 1 as [|line lines Hl _ [IHp IHs]]; [by split|]. simpl.
  destruct (sections_of lines) as [pre secs]; simpl in *.
  destruct (is_header line); simpl.
  - split; [done|]. constructor; [|done]. by split.
  - destruct (is_blank line); simpl; split; auto.
Qed.

Lemma parse_lines_clean lines :
  Forall (fun l => no_newline (rstrip l) = true) lines ->
  Forall clean (parse_lines lines).
Proof.
  intros H. rewrite parse_lines_sections_of. by apply sections_of_clean.
Qed.

End ParserFacts.

(** * Reading a text back *)

Module ReadFacts.
Import Py PyFacts.

Lemma no_cr_universal raw : no_cr (universal_newlines raw) = true.
Proof.
  induction raw as [|c r IH]; [reflexivity|]. simpl.
  destruct (bool_decide (c = CR)) eqn:Hc.
  - destruct r as [|d r']; [reflexivity|].
    destruct (bool_decide (d = LF)); [exact IH|].
    simpl. simpl in IH. exact IH.
  - simpl. by rewrite Hc.
Qed.

Lemma universal_id s : no_cr s = true -> universal_newlines s = s.
Proof.
  induction s as [|c r IH]; [reflexivity|]. simpl.
  destruct (bool_decide (c = CR)); simpl; [done|].
  intros H. by rewrite IH.
Qed.

Lemma no_newline_rstrip s : no_newline s = true -> no_newline (rstrip s) = true.
Proof.
  induction s as [|c r IH]; [reflexivity|]. rewrite rstrip_cons. simpl.
  intros [Hc Hr]%andb_true_iff.
  destruct (negb (truthy (rstrip r)) && isspace c); [reflexivity|].
  simpl. by rewrite Hc, IH.
Qed.

(** Without its trailing white space, a line read from a file holds no
    line terminator. *)
Lemma keepends_clean s :
  no_cr s = true ->
  Forall (fun l => no_newline (rstrip l) = true) (keepends s).
Proof.
  induction s as [|c r IH]; [constructor|]. simpl.
  intros [Hc Hr]%andb_true_iff. specialize (IH Hr).
  destruct (bool_decide (c = LF)) eqn:Hlf.
  - apply bool_decide_eq_true in Hlf as ->. by constructor.
  - destruct (keepends r) as [|l ls].
    + constructor; [|constructor]. rewrite rstrip_cons. simpl.
      destruct (isspace c); simpl; [done|]. by rewrite Hlf, Hc.
    + inversion IH as [|? ? Hl Hls]; subst. constructor; [|done].
      rewrite rstrip_cons.
      destruct (negb (truthy (rstrip l)) && isspace c); [done|].
      simpl. by rewrite Hlf, Hc, Hl.
Qed.

Lemma readlines_clean raw :
  Forall (fun l => no_newline (rstrip l) = true) (readlines raw).
Proof. apply keepends_clean, no_cr_universal. Qed.

Lemma no_cr_app s t :
  no_newline s = true -> no_cr t = true -> no_cr (s +:+ t) = true.
Proof.
  induction s as [|c r IH]; [done|]. rewrite sapp_cons. simpl.
  intros [[_ Hc]%andb_true_iff Hr]%andb_true_iff Ht.
  by rewrite Hc, IH.
Qed.

Lemma keepends_line l rest :
  no_newline l = true ->
  keepends (l +:+ String LF rest) = (l +:+ String LF "") :: keepends rest.
Proof.
  induction l as [|c r IH]; [reflexivity|]. rewrite !sapp_cons. simpl.
  intros [[Hlf _]%andb_true_iff Hr]%andb_true_iff.
  apply negb_true_iff in Hlf. by rewrite Hlf, IH.
Qed.

Lemma render_cons x y r :
  render (x :: y :: r) = x +:+ String LF (render (y :: r)).
Proof.
  unfold render. cbn [join]. by rewrite !sapp_assoc.
Qed.

Lemma no_cr_render out :
  Forall (fun l => no_newline l = true) out -> no_cr (render out) = true.
Proof.
  induction 1 as [|x r Hx Hr IH]; [reflexivity|].
  destruct r as [|y r].
  - unfold render; simpl. by apply no_cr_app.
  - rewrite render_cons. by apply no_cr_app.
Qed.

(** Reading back a rendered list of lines gives the lines, each with its
    terminator. *)
Lemma readlines_render out :
  out <> [] -> Forall (fun l => no_newline l = true) out ->
  readlines (render out) = map (fun l => l +:+ String LF "") out.
Proof.
  intros Hne Hout. unfold readlines, read.
  rewrite universal_id by by apply no_cr_render.
  destruct out as [|x r]; [done|]. clear Hne.
  revert x Hout. induction r as [|y r IH]; intros x Hout.
  - inversion Hout; subst. unfold render; simpl. by rewrite keepends_line.
  - inversion Hout; subst.
    rewrite render_cons, keepends_line by done. by rewrite IH.
Qed.

Lemma readlines_render_nil : readlines (render []) = [String LF ""].
Proof. reflexivity. Qed.

End ReadFacts.

(** * The filtering pass *)

Module FilterFacts.
Import Py PyFacts.

Lemma item0_split_before (line : string) :
  item0 (split HASH line) = before_hash line.
Proof.
  induction line as [|c r IH]; [reflexivity|]. simpl.
  destruct (bool_decide (c = HASH)); [reflexivity|].
  pose proof (split_nonempty HASH r).
  destruct (split HASH r); [done|]. simpl in *. by rewrite IH.
Qed.

(** Both ways of taking the entry of a line give its [Entry]. *)
Lemma common_entry_Entry line : common_entry line = Entry line.
Proof. unfold common_entry, Entry. by rewrite item0_split_before. Qed.

Lemma device_entry_Entry line : device_entry line = Entry line.
Proof.
  unfold device_entry, Entry. by rewrite item0_split1, item0_split_before.
Qed.

Lemma filter_loop ce verb lines : forall filtered n printed,
  fold_left (filter_line ce verb) lines (filtered, n, printed) =
  (filtered ++ kept ce lines, n + length (removed ce lines),
   printed ++ removal_log verb (removed ce lines)).
Proof.
  induction lines as [|l lines IH]; intros filtered n printed.
  - simpl. by rewrite !app_nil_r, Nat.add_0_r.
  - cbn [fold_left]. unfold filter_line at 2.
    change (bool_decide (device_entry l ∈ ce)) with (duplicate ce l).
    unfold kept, removed. cbn [List.filter].
    fold (kept ce lines) (removed ce lines).
    destruct (duplicate ce l); rewrite IH; simpl.
    + f_equal; [f_equal; lia|]. by rewrite <- app_assoc.
    + by rewrite <- app_assoc.
Qed.

Lemma removelast_snoc {A} (l : list A) (x : A) : List.removelast (l ++ [x]) = l.
Proof. by rewrite List.removelast_app, app_nil_r. Qed.

Lemma process_section_spec ce verb out n printed s :
  process_section ce verb (out, n, printed) s =
  (out ++ contribution ce s, n + length (removed ce (content s)),
   printed ++ removal_log verb (removed ce (content s))).
Proof.
  unfold process_section, contribution.
  destruct (content s) as [|l ls] eqn:E.
  - simpl. by rewrite !app_nil_r, Nat.add_0_r.
  - cbn [truthy_list]. rewrite filter_loop, app_nil_l.
    generalize (kept ce (l :: ls)). intros [|k ks]; cbn [truthy_list].
    + by rewrite removelast_snoc, app_nil_r.
    + by rewrite <- app_assoc.
Qed.

Lemma process_loop ce verb secs : forall out n printed,
  fold_left (process_section ce verb) secs (out, n, printed) =
  (out ++ flat_map (contribution ce) secs,
   n + length (removed_lines ce secs),
   printed ++ removal_log verb (removed_lines ce secs)).
Proof.
  induction secs as [|s secs IH]; intros out n printed.
  - simpl. by rewrite !app_nil_r, Nat.add_0_r.
  - cbn [fold_left]. rewrite process_section_spec, IH.
    unfold removed_lines, removal_log. cbn [flat_map].
    rewrite !length_app, !flat_map_app, <- !app_assoc.
    f_equal. f_equal. lia.
Qed.

Lemma strip_blank_tail_snoc lines x :
  strip_blank_tail (lines ++ [x]) =
  if truthy x then lines ++ [x] else strip_blank_tail lines.
Proof.
  induction lines as [|y r IH]; simpl.
  - by destruct (truthy x).
  - rewrite IH. destruct (truthy x) eqn:Hx; [|done].
    by destruct (r ++ [x]) eqn:E; [destruct r|].
Qed.

(** The loop that pops the empty lines stops within the length of the
    list. *)
Lemma pop_trailing_spec fuel : forall lines,
  length lines <= fuel -> pop_trailing fuel lines = strip_blank_tail lines.
Proof.
  induction fuel as [|fuel IH]; intros lines Hlen.
  - destruct lines; [reflexivity|simpl in Hlen; lia].
  - destruct lines as [|x r] using rev_ind; [reflexivity|]. clear IHr.
    cbn [pop_trailing]. rewrite last_last, removelast_snoc.
    rewrite strip_blank_tail_snoc.
    replace (truthy_list (r ++ [x])) with true by by destruct r.
    rewrite length_app in Hlen. simpl in Hlen.
    destruct (truthy x); simpl; [done|]. apply IH. lia.
Qed.

Lemma process_sections_spec ce verb src secs :
  process_sections ce verb src secs =
  (strip_blank_tail (source_lines src ++ flat_map (contribution ce) secs),
   length (removed_lines ce secs),
   removal_log verb (removed_lines ce secs)).
Proof.
  unfold process_sections. rewrite process_loop.
  by rewrite pop_trailing_spec.
Qed.

End FilterFacts.

(** * Runs of the program *)

Module RunFacts.
Import Py PyFacts FilterFacts.

Ltac run :=
  unfold mbind, M_bind, bind, mret, M_ret, ret, gets, emit, print, sys_exit,
    path_exists, path_is_file, open_read, open_write, set_source_line,
    set_common_entries.

(** The lines printed and the count do not depend on each other, and the
    output lines do not depend on [verbose]. *)
Lemma filter_device_lines common_raw device_raw verb :
  (filter_device common_raw device_raw verb).1 =
  (filter_device common_raw device_raw false).1.
Proof. unfold filter_device. by rewrite !process_sections_spec. Qed.

Lemma validate_files_run s :
  validate_files s =
  match validation_error (fs s) (common_file (self s)) (device_file (self s)) with
  | Some m => (SystemExit 1, mkState (self s) (fs s) (trace s ++ [Print m]))
  | None => (Return tt, s)
  end.
Proof.
  unfold validate_files, validation_error, path_error, for_each. run.
  destruct s as [dd files tr]. cbn [self fs trace].
  destruct (files !! common_file dd) as [[?|]|] eqn:Ec;
    destruct (files !! device_file dd) as [[?|]|] eqn:Ed;
    cbn; rewrite ?Ec; cbn; rewrite ?Ec; cbn; rewrite ?Ed; cbn;
    rewrite ?Ed; reflexivity.
Qed.

Lemma parse_file_run p raw s :
  fs s !! p = Some (RegularFile raw) ->
  parse_file p s =
  (Return (parse_lines (body_lines (readlines raw))),
   match found_source (readlines raw) with
   | Some l =>
       mkState (mkDeduplicator (common_file (self s)) (device_file (self s))
                  (dry_run (self s)) (verbose (self s))
                  (common_entries (self s)) (Some l))
               (fs s) (trace s ++ [OpenRead p])
   | None => mkState (self s) (fs s) (trace s ++ [OpenRead p])
   end).
Proof.
  intros H. unfold parse_file, found_source, body_lines. run.
  rewrite H. destruct (has_source_line (readlines raw)); reflexivity.
Qed.

Lemma load_common_entries_run s rc :
  fs s !! common_file (self s) = Some (RegularFile rc) ->
  load_common_entries s =
  let d := self s in
  let ce := add_sections (common_entries d)
                         (parse_lines (body_lines (readlines rc))) in
  (Return tt,
   mkState (mkDeduplicator (common_file d) (device_file d) (dry_run d)
              (verbose d) ce
              (or_source (found_source (readlines rc)) (source_line d)))
           (fs s)
           (trace s ++ [OpenRead (common_file d)] ++
            map Print (log_lines (verbose d)
                         ("Loaded " +:+ pretty (size ce) +:+
                          " entries from common file") true))).
Proof.
  intros H. unfold load_common_entries.
  unfold mbind at 1, M_bind at 1, bind at 1, gets at 1.
  unfold mbind at 1, M_bind at 1, bind at 1.
  rewrite (parse_file_run _ rc) by done.
  destruct s as [[cf df dr vb ce0 src] files tr]; cbn [self fs trace] in *.
  destruct (found_source (readlines rc)); unfold log; run; cbn;
    by rewrite <- app_assoc.
Qed.

Lemma process_device_file_run s rd :
  fs s !! device_file (self s) = Some (RegularFile rd) ->
  process_device_file s =
  let d := self s in
  let src := or_source (found_source (readlines rd)) (source_line d) in
  let r := process_sections (common_entries d) (verbose d) src
                            (parse_lines (body_lines (readlines rd))) in
  (Return (render r.1.1),
   mkState (mkDeduplicator (common_file d) (device_file d) (dry_run d)
              (verbose d) (common_entries d) src)
           (fs s)
           (trace s ++ [OpenRead (device_file d)] ++ map Print r.2 ++
            [Print (info ("Found " +:+ pretty r.1.2 +:+
                          " duplicates to remove"))])).
Proof.
  intros H. unfold process_device_file.
  unfold mbind at 1, M_bind at 1, bind at 1, gets at 1.
  unfold mbind at 1, M_bind at 1, bind at 1.
  rewrite (parse_file_run _ rd) by done.
  destruct s as [[cf df dr vb ce0 src] files tr]; cbn [self fs trace] in *.
  destruct (found_source (readlines rd)) as [l|]; cbn [or_source];
    run; cbn [self fs trace common_entries verbose source_line];
    match goal with |- context [process_sections ?a ?b ?c ?e] =>
      destruct (process_sections a b c e) as [[out n] pr] end;
    unfold log; run; cbn; by rewrite <- !app_assoc.
Qed.

Lemma or_source_none found : or_source found None = found.
Proof. by destruct found. Qed.

Lemma main_invalid c d dry verb files m :
  validation_error files c d = Some m ->
  main c d dry verb files = (1%Z, mkState (init c d dry verb) files [Print m]).
Proof.
  intros H. unfold main, deduplicate. unfold mbind at 1, M_bind at 1, bind at 1.
  rewrite validate_files_run. cbn [self fs trace init common_file device_file].
  by rewrite H.
Qed.

Lemma main_valid c d dry verb files rc rd :
  files !! c = Some (RegularFile rc) ->
  files !! d = Some (RegularFile rd) ->
  main c d dry verb files =
  (0%Z,
   mkState (mkDeduplicator c d dry verb (load_common rc) (final_source rc rd))
           (if dry then files
            else <[d := RegularFile (output_text rc rd)]> files)
           (run_trace c d dry verb rc rd)).
Proof.
  intros Hc Hd. unfold main, deduplicate.
  unfold mbind at 1, M_bind at 1, bind at 1.
  rewrite validate_files_run. cbn [self fs trace init common_file device_file].
  unfold validation_error, path_error. rewrite Hc, Hd.
  unfold mbind at 1, M_bind at 1, bind at 1.
  rewrite (load_common_entries_run _ rc) by done.
  cbn [self fs trace init common_file device_file dry_run verbose
       common_entries source_line].
  unfold mbind at 1, M_bind at 1, bind at 1.
  rewrite (process_device_file_run _ rd) by done.
  cbn [self fs trace init common_file device_file dry_run verbose
       common_entries source_line].
  rewrite or_source_none.
  unfold run_trace, output_text.
  rewrite <- (filter_device_lines rc rd verb).
  unfold filter_device, device_sections.
  fold (load_common rc).
  change (or_source (found_source (readlines rd)) (found_source (readlines rc)))
    with (final_source rc rd).
  destruct (process_sections _ _ _ _) as [[out n] pr].
  cbn [fst snd].
  destruct dry.
  - unfold show_diff, log. run. cbn. rewrite Hd. cbn.
    do 2 f_equal.
    repeat first [rewrite <- app_assoc | rewrite <- app_comm_cons].
    reflexivity.
  - unfold log. run. cbn. rewrite Hd. cbn.
    do 2 f_equal.
    repeat first [rewrite <- app_assoc | rewrite <- app_comm_cons].
    reflexivity.
Qed.

End RunFacts.

(** * A second run on the output of the first *)

Module RoundTrip.
Import Py PyFacts ParserFacts ReadFacts FilterFacts.

(** ** The marker survives the trimming of the source line *)

Lemma prefix_app sub : forall s t,
  String.prefix sub s = true -> String.prefix sub (s +:+ t) = true.
Proof.
  induction sub as [|a sub IH]; intros s t.
  - intros _. by destruct (s +:+ t).
  - destruct s as [|b s]; [done|]. rewrite sapp_cons. simpl.
    destruct (ascii_dec a b); [apply IH|done].
Qed.

Lemma str_in_app sub s t : str_in sub s = true -> str_in sub (s +:+ t) = true.
Proof.
  induction s as [|c s IH].
  - cbn [str_in]. rewrite orb_false_r, sapp_empty. intros H.
    destruct sub; [by destruct t|done].
  - rewrite sapp_cons. cbn [str_in].
    intros [H|H]%orb_true_iff; apply orb_true_iff.
    + left. exact (prefix_app sub (String c s) t H).
    + right. by apply IH.
Qed.

Lemma prefix_empty sub : sub <> "" -> String.prefix sub "" = false.
Proof. by destruct sub. Qed.

Lemma prefix_rstrip sub : forall s,
  sub <> "" -> rstrip sub = sub ->
  String.prefix sub s = true -> String.prefix sub (rstrip s) = true.
Proof.
  induction sub as [|a sub IH]; intros s Hne Hfix; [done|].
  destruct s as [|b s]; [done|]. simpl.
  destruct (ascii_dec a b) as [<-|]; [|done]. intros Hp.
  rewrite rstrip_cons in Hfix.
  destruct (negb (truthy (rstrip sub)) && isspace a) eqn:E; [done|].
  injection Hfix as Hfix.
  assert (String.prefix sub (rstrip s) = true) as Hr.
  { destruct sub as [|a' sub']; [by destruct (rstrip s)|]. by apply IH. }
  assert (negb (truthy (rstrip s)) && isspace a = false) as ->.
  { destruct (isspace a); [|apply andb_false_r].
    rewrite andb_true_r in E |- *. apply negb_false_iff in E.
    apply negb_false_iff. rewrite Hfix in E.
    destruct sub; [done|]. by destruct (rstrip s). }
  simpl. by destruct (ascii_dec a a).
Qed.

Lemma str_in_empty sub : sub <> "" -> str_in sub "" = false.
Proof. by destruct sub. Qed.

Lemma str_in_prefix sub s : String.prefix sub s = true -> str_in sub s = true.
Proof. intros H. destruct s; cbn [str_in]; by rewrite H. Qed.

Lemma str_in_rstrip sub s :
  sub <> "" -> rstrip sub = sub ->
  str_in sub s = true -> str_in sub (rstrip s) = true.
Proof.
  intros Hne Hfix. induction s as [|c s IH]; [done|].
  intros H.
  assert (String.prefix sub (String c s) = true \/ str_in sub s = true)
    as [Hp|Hs] by (simpl in H; by apply orb_true_iff in H).
  - by apply str_in_prefix, prefix_rstrip.
  - specialize (IH Hs). rewrite rstrip_cons.
    destruct (rstrip s) eqn:Es; [by rewrite str_in_empty in IH|].
    simpl truthy. simpl negb. cbn [andb].
    change (str_in sub (String c (String a s0)))
      with (String.prefix sub (String c (String a s0)) ||
            str_in sub (String a s0)).
    rewrite IH. apply orb_true_r.
Qed.

Lemma marker_kept l :
  str_in MARKER l = true -> str_in MARKER (terminated (rstrip l)) = true.
Proof.
  intros H. apply str_in_app, str_in_rstrip; done.
Qed.

Lemma marker_truthy l : str_in MARKER l = true -> truthy (rstrip l) = true.
Proof.
  intros H%(str_in_rstrip MARKER); [|done..]. by destruct (rstrip l).
Qed.

(** ** Parsing the lines of an output *)

Lemma rstrip_terminated l : rstrip (terminated l) = rstrip l.
Proof. apply rstrip_lf. Qed.

Lemma is_header_terminated l :
  rstrip l = l -> is_header (terminated l) = startswith HASH l.
Proof. intros H. unfold is_header. by rewrite rstrip_terminated, H. Qed.

Lemma is_blank_terminated l :
  is_blank (terminated l) = negb (truthy (strip l)).
Proof. unfold is_blank. by rewrite rstrip_terminated, strip_rstrip. Qed.

Lemma sections_of_content_line l rest :
  content_line l ->
  sections_of (terminated l :: rest) =
  (l :: (sections_of rest).1, (sections_of rest).2).
Proof.
  intros (Hfix & Hh & Hb). cbn [sections_of].
  rewrite is_header_terminated, Hh, is_blank_terminated, Hb by done.
  rewrite rstrip_terminated, Hfix. by destruct (sections_of rest).
Qed.

Lemma sections_of_header_line h rest :
  header_line h ->
  sections_of (terminated h :: rest) =
  ([], mkSection h (sections_of rest).1 :: (sections_of rest).2).
Proof.
  intros (Hfix & Hh). cbn [sections_of].
  rewrite is_header_terminated, Hh by done.
  rewrite rstrip_terminated, Hfix. by destruct (sections_of rest).
Qed.

Lemma sections_of_empty_line rest :
  sections_of (terminated "" :: rest) = sections_of rest.
Proof. cbn [sections_of]. destruct (sections_of rest). reflexivity. Qed.

Lemma sections_of_content_lines ls rest :
  Forall content_line ls ->
  sections_of (map terminated ls ++ rest) =
  (ls ++ (sections_of rest).1, (sections_of rest).2).
Proof.
  induction 1 as [|l ls Hl _ IH].
  - cbn [map app]. by destruct (sections_of rest).
  - cbn [map app]. rewrite sections_of_content_line by done. by rewrite IH.
Qed.

Lemma Forall_kept (P : string -> Prop) ce ls :
  Forall P ls -> Forall P (kept ce ls).
Proof.
  induction 1 as [|l ls Hl _ IH]; [constructor|]. unfold kept. simpl.
  destruct (negb (duplicate ce l)); [by constructor|done].
Qed.

(** Parsing what the sections add to the output gives the sections that
    are left. *)
Lemma sections_of_contributions ce secs :
  Forall well_formed secs ->
  sections_of (map terminated (flat_map (contribution ce) secs)) =
  ([], survivors ce secs).
Proof.
  induction 1 as [|s secs [Hh Hc] _ IH]; [reflexivity|].
  unfold survivors in *. cbn [flat_map]. unfold contribution at 1.
  pose proof (Forall_kept content_line ce _ Hc) as Hk.
  destruct (kept ce (content s)) as [|k ks] eqn:E; [exact IH|].
  rewrite map_app, map_cons, <- app_comm_cons.
  rewrite sections_of_header_line by done.
  rewrite map_app, <- app_assoc, sections_of_content_lines by done.
  change (map terminated [""]) with [terminated ""]. cbn [app].
  rewrite sections_of_empty_line, IH. cbn [fst snd].
  by rewrite app_nil_r.
Qed.

Lemma strip_blank_tail_truthy x r :
  truthy x = true -> strip_blank_tail (x :: r) = x :: strip_blank_tail r.
Proof. intros H. simpl. rewrite H. by destruct (strip_blank_tail r). Qed.

Lemma strip_blank_tail_empty r :
  strip_blank_tail ("" :: r) =
  match strip_blank_tail r with [] => [] | r' => "" :: r' end.
Proof. reflexivity. Qed.

(** The empty lines at the end of an output do not change its parse. *)
Lemma sections_of_strip lines :
  sections_of (map terminated (strip_blank_tail lines)) =
  sections_of (map terminated lines).
Proof.
  induction lines as [|x r IH]; [reflexivity|].
  cbn [strip_blank_tail map].
  destruct (strip_blank_tail r) as [|y r'] eqn:E.
  - destruct x as [|c x].
    + cbn [truthy]. rewrite sections_of_empty_line. exact IH.
    + cbn [truthy map]. cbn [sections_of]. cbn [map] in IH. by rewrite <- IH.
  - cbn [map sections_of] in *. by rewrite <- IH.
Qed.

Lemma Forall_strip_blank_tail (P : string -> Prop) lines :
  Forall P lines -> Forall P (strip_blank_tail lines).
Proof.
  induction 1 as [|x r Hx _ IH]; [constructor|]. simpl.
  destruct (strip_blank_tail r); [|by constructor].
  destruct (truthy x); by repeat constructor.
Qed.

(** ** Filtering what was already filtered *)

Lemma kept_kept ce ls : kept ce (kept ce ls) = kept ce ls.
Proof.
  unfold kept. induction ls as [|l ls IH]; [reflexivity|]. simpl.
  destruct (negb (duplicate ce l)) eqn:E; simpl; rewrite ?E, IH; done.
Qed.

Lemma removed_kept ce ls : removed ce (kept ce ls) = [].
Proof.
  unfold kept, removed. induction ls as [|l ls IH]; [reflexivity|]. simpl.
  destruct (duplicate ce l) eqn:E; simpl; rewrite ?E; done.
Qed.

Lemma contribution_survivors ce secs :
  flat_map (contribution ce) (survivors ce secs) =
  flat_map (contribution ce) secs.
Proof.
  unfold survivors. induction secs as [|s secs IH]; [reflexivity|].
  cbn [flat_map]. rewrite flat_map_app, IH. f_equal.
  unfold contribution at 2.
  destruct (kept ce (content s)) as [|k ks] eqn:E; [reflexivity|].
  cbn [flat_map]. unfold contribution. cbn [header content].
  rewrite <- E, kept_kept, E. by rewrite app_nil_r.
Qed.

Lemma removed_survivors ce secs : removed_lines ce (survivors ce secs) = [].
Proof.
  unfold removed_lines, survivors.
  induction secs as [|s secs IH]; [reflexivity|].
  cbn [flat_map]. rewrite flat_map_app, IH, app_nil_r.
  destruct (kept ce (content s)) as [|k ks] eqn:E; [reflexivity|].
  cbn [flat_map content]. by rewrite <- E, removed_kept.
Qed.

(** ** What is known of the first run *)

Lemma found_source_ok raw : source_ok (found_source (readlines raw)).
Proof.
  pose proof (readlines_clean raw) as H.
  unfold found_source, has_source_line.
  destruct (readlines raw) as [|l ls]; [exact I|]. cbn [truthy_list item0 hd andb].
  destruct (str_in MARKER l) eqn:E; [|exact I].
  split; [done|]. by inversion H.
Qed.

Lemma final_source_ok rc rd : source_ok (final_source rc rd).
Proof.
  unfold final_source. pose proof (found_source_ok rd) as Hd.
  destruct (found_source (readlines rd)); [exact Hd|apply found_source_ok].
Qed.

Lemma body_lines_clean raw :
  Forall (fun l => no_newline (rstrip l) = true) (body_lines (readlines raw)).
Proof.
  pose proof (readlines_clean raw) as H. unfold body_lines.
  destruct (has_source_line (readlines raw)); [|done].
  destruct (readlines raw); [done|]. by inversion H.
Qed.

Lemma device_sections_well_formed rd : Forall well_formed (device_sections rd).
Proof. apply parse_lines_well_formed. Qed.

Lemma device_sections_clean rd : Forall clean (device_sections rd).
Proof. apply parse_lines_clean, body_lines_clean. Qed.

Lemma source_lines_some l :
  str_in MARKER l = true -> source_lines (Some l) = [rstrip l; ""].
Proof. intros H. unfold source_lines. by destruct l. Qed.

Lemma contribution_clean ce secs :
  Forall clean secs ->
  Forall (fun l => no_newline l = true) (flat_map (contribution ce) secs).
Proof.
  induction 1 as [|s secs [Hh Hc] _ IH]; [constructor|].
  cbn [flat_map]. apply Forall_app. split; [|done].
  unfold contribution.
  pose proof (Forall_kept (fun l => no_newline l = true) ce _ Hc) as Hk.
  destruct (kept ce (content s)); [constructor|].
  constructor; [done|]. apply Forall_app. split; [done|].
  by repeat constructor.
Qed.

(** The parse of the output of a run: the source line of that run, and
    the sections it left. *)
Lemma reparse ce src secs :
  Forall well_formed secs -> Forall clean secs -> source_ok src ->
  let out := strip_blank_tail
               (source_lines src ++ flat_map (contribution ce) secs) in
  src <> None \/ has_source_line (readlines (render out)) = false ->
  found_source (readlines (render out)) =
    option_map (fun l => terminated (rstrip l)) src /\
  parse_lines (body_lines (readlines (render out))) = survivors ce secs.
Proof.
  intros Hwf Hclean Hsrc out Hcond.
  pose proof (sections_of_contributions ce secs Hwf) as Hparse.
  pose proof (contribution_clean ce secs Hclean) as Hnl.
  destruct src as [l|]; cbn [option_map].
  - destruct Hsrc as [Hm Hl].
    assert (out = rstrip l ::
              strip_blank_tail ("" :: flat_map (contribution ce) secs)) as Hout.
    { unfold out. rewrite source_lines_some by done.
      cbn [app]. by rewrite strip_blank_tail_truthy by by apply marker_truthy. }
    assert (readlines (render out) = map terminated out) as Hread.
    { apply readlines_render; [by rewrite Hout|].
      rewrite Hout. constructor; [done|].
      apply Forall_strip_blank_tail. by constructor. }
    rewrite Hread, Hout. cbn [map].
    unfold found_source, body_lines, has_source_line.
    cbn [truthy_list item0 hd andb tl]. rewrite marker_kept by done.
    split; [reflexivity|].
    rewrite parse_lines_sections_of, sections_of_strip. cbn [map].
    by rewrite sections_of_empty_line, Hparse.
  - destruct Hcond as [|Hno]; [done|].
    unfold found_source, body_lines. rewrite Hno. split; [reflexivity|].
    cbn [source_lines app] in out.
    rewrite parse_lines_sections_of.
    destruct out as [|x r] eqn:Hout.
    + rewrite readlines_render_nil.
      rewrite <- sections_of_strip in Hparse. fold out in Hparse.
      rewrite Hout in Hparse. simpl in Hparse.
      injection Hparse as <-. reflexivity.
    + rewrite readlines_render; [| done |].
      * rewrite <- Hout. unfold out. by rewrite sections_of_strip, Hparse.
      * rewrite <- Hout. by apply Forall_strip_blank_tail.
Qed.

End RoundTrip.

(** * The lines of the output *)

Module OutputFacts.
Import Py PyFacts ParserFacts FilterFacts RoundTrip.

Lemma strip_blank_tail_app front back :
  strip_blank_tail (front ++ back) =
  match strip_blank_tail back with
  | [] => strip_blank_tail front
  | back' => front ++ back'
  end.
Proof.
  induction front as [|x r IH]; cbn [app strip_blank_tail].
  - by destruct (strip_blank_tail back).
  - rewrite IH. destruct (strip_blank_tail back) as [|y back']; [done|].
    by destruct (r ++ y :: back') eqn:E; [destruct r|].
Qed.

Lemma length_strip_blank_tail lines :
  length (strip_blank_tail lines) <= length lines.
Proof.
  induction lines as [|x r IH]; simpl; [lia|].
  destruct (strip_blank_tail r); simpl in *; [|lia].
  destruct (truthy x); simpl; lia.
Qed.

Lemma filter_entry_strip lines :
  List.filter entry_line (strip_blank_tail lines) =
  List.filter entry_line lines.
Proof.
  induction lines as [|x r IH]; [reflexivity|]. cbn [strip_blank_tail].
  destruct (strip_blank_tail r) as [|y r'].
  - cbn [List.filter] in *. rewrite <- IH.
    destruct x; [reflexivity|]. cbn [truthy List.filter].
    by destruct (entry_line _).
  - cbn [List.filter] in *. by rewrite IH.
Qed.

(** The entry lines of an output are those of what the sections added. *)
Lemma output_entries_spec src body :
  output_entries src (strip_blank_tail (source_lines src ++ body)) =
  List.filter entry_line body.
Proof.
  unfold output_entries. rewrite strip_blank_tail_app.
  rewrite <- (filter_entry_strip body).
  destruct (strip_blank_tail body) as [|y body'].
  - rewrite skipn_all2; [reflexivity|apply length_strip_blank_tail].
  - by rewrite skipn_app, skipn_all, Nat.sub_diag.
Qed.

Lemma content_line_truthy l : content_line l -> truthy l = true.
Proof. intros (_ & _ & H). by destruct l. Qed.

Lemma content_line_entry l : content_line l -> entry_line l = true.
Proof.
  intros H. unfold entry_line. rewrite (content_line_truthy l H).
  destruct H as (_ & -> & _). reflexivity.
Qed.

Lemma header_line_entry h : header_line h -> entry_line h = false.
Proof. intros [_ H]. unfold entry_line. rewrite H. apply andb_false_r. Qed.

Lemma filter_entry_content ls :
  Forall content_line ls -> List.filter entry_line ls = ls.
Proof.
  induction 1 as [|l ls Hl _ IH]; [reflexivity|]. simpl.
  by rewrite content_line_entry, IH.
Qed.

Lemma filter_entry_contributions ce secs :
  Forall well_formed secs ->
  List.filter entry_line (flat_map (contribution ce) secs) =
  kept_lines ce secs.
Proof.
  unfold kept_lines.
  induction 1 as [|s secs [Hh Hc] _ IH]; [reflexivity|].
  cbn [flat_map]. rewrite List.filter_app, IH. f_equal.
  unfold contribution.
  pose proof (Forall_kept content_line ce _ Hc) as Hk.
  destruct (kept ce (content s)) as [|k ks]; [reflexivity|].
  cbn [List.filter]. rewrite header_line_entry by done.
  rewrite List.filter_app, filter_entry_content by done.
  by rewrite app_nil_r.
Qed.

Lemma flat_map_filter (f : string -> bool) secs :
  flat_map (fun s => List.filter f (content s)) secs =
  List.filter f (all_content secs).
Proof.
  unfold all_content. induction secs as [|s secs IH]; [reflexivity|].
  cbn [flat_map]. by rewrite List.filter_app, IH.
Qed.

(** Every stored line is a line of the input without its trailing white
    space. *)
Lemma sections_of_sources lines :
  Forall (fun l => exists l0, In l0 lines /\ l = rstrip l0)
         ((sections_of lines).1 ++ all_content (sections_of lines).2).
Proof.
  induction lines as [|line lines IH]; [constructor|]. cbn [sections_of].
  destruct (sections_of lines) as [pre secs]. cbn [fst snd] in *.
  assert (Forall (fun l => exists l0, In l0 (line :: lines) /\ l = rstrip l0)
                 (pre ++ all_content secs)) as IH'.
  { eapply List.Forall_impl; [|exact IH].
    intros l (l0 & Hin & ->). exists l0. split; [by right|done]. }
  destruct (is_header line); [exact IH'|].
  destruct (is_blank line); [exact IH'|].
  cbn [fst snd app]. constructor; [|exact IH'].
  exists line. split; [by left|done].
Qed.

Lemma in_strip_blank_tail l lines :
  truthy l = true -> In l lines -> In l (strip_blank_tail lines).
Proof.
  intros Hl. induction lines as [|x r IH]; [done|].
  intros [->|Hin].
  - rewrite strip_blank_tail_truthy by done. by left.
  - specialize (IH Hin). cbn [strip_blank_tail].
    destruct (strip_blank_tail r); [done|]. by right.
Qed.

Lemma in_contribution ce s l :
  In l (content s) -> duplicate ce l = false -> In l (contribution ce s).
Proof.
  intros Hin Hd.
  assert (In l (kept ce (content s))) as Hk.
  { apply List.filter_In. split; [done|]. by rewrite Hd. }
  unfold contribution. destruct (kept ce (content s)) eqn:E; [done|].
  right. apply in_or_app. by left.
Qed.

(** Loading never adds the empty string. *)
Lemma add_line_no_empty ce line : "" ∉ ce -> "" ∉ add_line ce line.
Proof.
  intros H. unfold add_line.
  destruct (common_entry line) eqn:E; simpl; [done|].
  intros [Hx|Hx]%elem_of_union; [|done].
  by apply elem_of_singleton in Hx.
Qed.

Lemma add_sections_no_empty secs : forall ce,
  "" ∉ ce -> "" ∉ add_sections ce secs.
Proof.
  unfold add_sections.
  induction secs as [|s secs IH]; intros ce H; [done|].
  cbn [fold_left]. apply IH. clear IH.
  revert ce H. induction (content s) as [|l ls IHl]; intros ce H; [done|].
  cbn [fold_left]. by apply IHl, add_line_no_empty.
Qed.

End OutputFacts.

(** * Sections that are left *)

Module SurvivorFacts.
Import Py PyFacts ParserFacts FilterFacts RoundTrip OutputFacts.

Lemma kept_nil ce ls :
  forallb (duplicate ce) ls =
  match kept ce ls with [] => true | _ :: _ => false end.
Proof.
  unfold kept. induction ls as [|l ls IH]; [reflexivity|]. simpl.
  by destruct (duplicate ce l).
Qed.


(** What the sections add is what the sections that are left hold. *)
Lemma contributions_of_survivors ce secs :
  flat_map (contribution ce) secs =
  flat_map (fun s => header s :: content s ++ [""]) (survivors ce secs).
Proof.
  unfold survivors. induction secs as [|s secs IH]; [reflexivity|].
  cbn [flat_map]. rewrite flat_map_app, <- IH. f_equal.
  unfold contribution. destruct (kept ce (content s)); [reflexivity|].
  cbn [flat_map header content]. by rewrite app_nil_r.
Qed.

Lemma survivors_headers ce secs :
  Forall well_formed secs ->
  Forall (fun s => header_line (header s)) (survivors ce secs).
Proof.
  unfold survivors. induction 1 as [|s secs [Hh _] _ IH]; [constructor|].
  cbn [flat_map]. apply Forall_app. split; [|done].
  destruct (kept ce (content s));
    [apply List.Forall_nil
    |apply List.Forall_cons; [exact Hh|apply List.Forall_nil]].
Qed.

Lemma body_lines_in raw l : In l (body_lines raw) -> In l raw.
Proof.
  unfold body_lines. destruct (has_source_line raw); [|done].
  destruct raw; [done|]. by right.
Qed.

Lemma header_line_truthy h : header_line h -> truthy h = true.
Proof. intros [_ H]. by destruct h. Qed.

End SurvivorFacts.

(** * Properties of the parser *)

Import Py PyFacts ParserFacts ReadFacts FilterFacts RunFacts RoundTrip OutputFacts
  SurvivorFacts.

(** C6. For every input text, [parse_file] returns: the lines that remain
    after the source line is taken off cut in one way only into the lines
    before the first header and one block for each header, and the result
    holds one section for each block, in the order of the input, a block
    without content lines included; the content of a section is the lines
    of its block without the blank ones, each without its trailing white
    space; the lines before the first header appear nowhere. *)
Theorem parse_file_sections (s : State) (p raw : string) :
  fs s !! p = Some (RegularFile raw) ->
  let lines := body_lines (Py.readlines raw) in
  (exists pre blocks,
      lines = pre ++ flat_map block_lines blocks /\ well_cut pre blocks) /\
  (forall pre blocks,
      lines = pre ++ flat_map block_lines blocks -> well_cut pre blocks ->
      exists s', parse_file p s = (Return (map section_of_block blocks), s')).
Proof.
  intros Hp lines. split.
  - exists (cut lines).1, (cut lines).2.
    split; [apply cut_lines|apply cut_well_cut].
  - intros pre blocks Hlines Hcut.
    rewrite (parse_file_run p raw s Hp). fold lines.
    rewrite Hlines, parse_lines_cut by done. eauto.
Qed.

Lemma parse_file_sections_witness :
  exists s',
    parse_file "device.txt" parse_example_state =
    (Return [mkSection "#audio" []; mkSection "#camera" ["lib/cam.so  # hal"]],
     s').
Proof.
  destruct (parse_file_sections parse_example_state "device.txt" parse_example)
    as [_ H]; [reflexivity|].
  apply (H [terminated "stray"]
           [(terminated "#audio", [nl]);
            (terminated "#camera", [terminated "lib/cam.so  # hal  "])]).
  - reflexivity.
  - split; repeat constructor.
Defined.

(** * Properties of the filtering pass *)

(** C1. For every device file and every set of common entries: the entry
    used by the filtering is the part of the line before its first ['#']
    with the white space around it stripped; the lines removed are the
    content lines whose entry is in the set, each counted once; the entry
    lines of the output are the content lines whose entry is not in the
    set, unchanged and in their order; and every content line is a line of
    the file without its trailing white space. *)
Theorem filter_keeps_exactly_new_entries
    (ce : gset string) (verb : bool) (src : option string) (raw : string) :
  let secs := device_sections raw in
  let r := process_sections ce verb src secs in
  (forall l, device_entry l = Entry l) /\
  removed_lines ce secs =
    List.filter (fun l => bool_decide (Entry l ∈ ce)) (all_content secs) /\
  r.1.2 = length (removed_lines ce secs) /\
  output_entries src r.1.1 =
    List.filter (fun l => negb (bool_decide (Entry l ∈ ce))) (all_content secs) /\
  (forall l, In l (output_entries src r.1.1) <->
             In l (all_content secs) /\ (Entry l ∉ ce)) /\
  Forall (fun l => exists l0, In l0 (Py.readlines raw) /\ l = Py.rstrip l0)
         (all_content secs).
Proof.
  intros secs r.
  assert (Forall well_formed secs) as Hwf by apply device_sections_well_formed.
  assert (r.1.1 = strip_blank_tail
                    (source_lines src ++ flat_map (contribution ce) secs) /\
          r.1.2 = length (removed_lines ce secs)) as [Hout Hcount].
  { unfold r. by rewrite process_sections_spec. }
  assert (output_entries src r.1.1 =
          List.filter (fun l => negb (bool_decide (Entry l ∈ ce)))
                      (all_content secs)) as Hkept.
  { rewrite Hout, output_entries_spec, filter_entry_contributions by done.
    unfold kept_lines, kept. rewrite flat_map_filter.
    apply List.filter_ext. intros l. unfold duplicate.
    by rewrite device_entry_Entry. }
  split; [apply device_entry_Entry|].
  split.
  { unfold removed_lines, removed. rewrite flat_map_filter.
    apply List.filter_ext. intros l. unfold duplicate.
    by rewrite device_entry_Entry. }
  split; [exact Hcount|].
  split; [exact Hkept|].
  split.
  { intros l. rewrite Hkept, List.filter_In, negb_true_iff.
    by rewrite bool_decide_eq_false. }
  pose proof (sections_of_sources (body_lines (readlines raw))) as H.
  apply Forall_app in H as [_ H].
  unfold secs, device_sections. rewrite parse_lines_sections_of.
  eapply List.Forall_impl; [|exact H].
  intros l (l0 & Hin & ->). exists l0. split; [|done].
  by apply body_lines_in.
Qed.


(** C7. The set of common entries never holds the empty string, and a
    content line of the device file whose entry is empty is not among the
    lines removed and is a line of the output. *)
Theorem empty_entry_is_kept
    (common_raw device_raw : string) (verb : bool) (s : Section) (l : string) :
  In s (device_sections device_raw) -> In l (content s) -> Entry l = "" ->
  ("" ∉ load_common common_raw) /\
  ~ In l (removed_lines (load_common common_raw) (device_sections device_raw)) /\
  In l (filter_device common_raw device_raw verb).1.1.
Proof.
  intros Hs Hl He.
  assert ("" ∉ load_common common_raw) as Hempty
    by (apply add_sections_no_empty; set_solver).
  assert (duplicate (load_common common_raw) l = false) as Hdup.
  { unfold duplicate. rewrite device_entry_Entry, He.
    by apply bool_decide_eq_false. }
  split; [exact Hempty|]. split.
  - unfold removed_lines, removed. rewrite in_flat_map.
    intros (s' & _ & Hin). apply List.filter_In in Hin as [_ Hin].
    by rewrite Hdup in Hin.
  - unfold filter_device. rewrite process_sections_spec. cbn [fst].
    pose proof (device_sections_well_formed device_raw) as Hwf.
    rewrite List.Forall_forall in Hwf. destruct (Hwf s Hs) as [_ Hc].
    rewrite List.Forall_forall in Hc.
    apply in_strip_blank_tail; [by apply content_line_truthy, Hc|].
    apply in_or_app. right. apply in_flat_map. exists s.
    split; [done|]. by apply in_contribution.
Qed.

Lemma empty_entry_is_kept_witness :
  Entry "  # vendor copy" = "" /\
  In "  # vendor copy" (filter_device stock_common note_device false).1.1.
Proof.
  split; [reflexivity|].
  apply (empty_entry_is_kept stock_common note_device false
           (mkSection "#audio" ["  # vendor copy"; "lib/audio.so"])
           "  # vendor copy").
  - vm_compute. by left.
  - simpl. by left.
  - reflexivity.
Defined.

(** * Properties of the source line *)

(** C3, as stated, fails: when every section of the device file is elided
    the output is the source line alone, and no blank line follows it. *)
Lemma source_line_blank_counterexample :
  final_source stock_common stock_device =
    Some (terminated "# extracted from stock") /\
  output_text stock_common stock_device = terminated "# extracted from stock" /\
  ~ (exists rest,
        (filter_device stock_common stock_device false).1.1 =
        "# extracted from stock" :: "" :: rest).
Proof.
  split; [by vm_compute|]. split; [by vm_compute|].
  intros [rest H]. vm_compute in H. discriminate H.
Qed.

(** C3, amended. When a source line is present, the first line of the
    output is that line without its trailing white space; when a section is
    left by the filtering, one empty line and then the header of the first
    such section follow; when no section is left, the output is that single
    line. *)
Theorem source_line_then_sections
    (ce : gset string) (verb : bool) (l raw : string) :
  Py.str_in MARKER l = true ->
  let secs := device_sections raw in
  let out := (process_sections ce verb (Some l) secs).1.1 in
  match survivors ce secs with
  | [] => out = [Py.rstrip l]
  | s :: _ =>
      exists rest,
        out = Py.rstrip l :: "" :: header s :: rest /\
        Py.startswith Py.HASH (header s) = true
  end.
Proof.
  intros Hm secs out.
  assert (out = Py.rstrip l ::
            strip_blank_tail ("" :: flat_map (contribution ce) secs)) as Hout.
  { unfold out. rewrite process_sections_spec. cbn [fst].
    rewrite source_lines_some by done. cbn [app].
    by rewrite strip_blank_tail_truthy by by apply marker_truthy. }
  rewrite contributions_of_survivors in Hout.
  pose proof (survivors_headers ce secs (device_sections_well_formed raw)) as Hh.
  fold secs in Hh.
  destruct (survivors ce secs) as [|s ss]; [exact Hout|].
  inversion Hh as [|? ? Hs _]; subst.
  cbn [flat_map app] in Hout.
  rewrite strip_blank_tail_empty, strip_blank_tail_truthy in Hout
    by by apply header_line_truthy.
  eexists. split; [exact Hout|]. by destruct Hs.
Qed.

Lemma source_line_then_sections_witness :
  exists rest,
    (process_sections (load_common stock_common) false
       (Some (terminated "# extracted from stock"))
       (device_sections note_device)).1.1 =
    "# extracted from stock" :: "" :: "#audio" :: rest /\
    Py.startswith Py.HASH "#audio" = true.
Proof.
  apply (source_line_then_sections (load_common stock_common) false
           (terminated "# extracted from stock") note_device).
  reflexivity.
Defined.

(** * The concrete scenario of a full elision *)

(** C4. With the common file and the device file both holding the one
    section [#comment] with the one entry [lib/foo.so], the filtering
    removes one line and leaves no output line; the text returned is the
    empty list of lines joined, followed by the one line feed, and it is
    empty once that line feed is taken off. *)
Theorem full_elision_scenario :
  filter_device elision_common elision_device false = ([], 1, []) /\
  removed_total elision_common elision_device = 1 /\
  output_text elision_common elision_device = "" +:+ nl /\
  Py.rstrip (output_text elision_common elision_device) = "" /\
  let r := main "common.txt" "device.txt" false false elision_files in
  r.1 = 0%Z /\
  fs r.2 !! "device.txt" = Some (RegularFile nl) /\
  In (Print (info "Found 1 duplicates to remove")) (trace r.2).
Proof.
  repeat split; try by vm_compute.
  vm_compute. tauto.
Qed.

(** * A second run *)

(** C5, as stated, fails: the first output of this device file starts with
    a header that holds the words of a source line; the second run takes
    that header for the source line and drops the entry under it. *)
Lemma second_run_counterexample :
  let first := output_text stock_common rerun_device in
  first = "# camera blobs extracted from stock" +:+ nl +:+ "lib/cam.so" +:+ nl /\
  output_text stock_common first =
    "# camera blobs extracted from stock" +:+ nl /\
  output_text stock_common first <> first.
Proof.
  split; [by vm_compute|]. split; [by vm_compute|].
  vm_compute. discriminate.
Qed.

(** C5, amended. When the first run had a source line, or when the first
    line of its output does not hold the words of a source line, a second
    run on that output against the same common file removes nothing and
    returns the same text. *)
Theorem second_run_changes_nothing (common_raw device_raw : string) :
  let first := output_text common_raw device_raw in
  final_source common_raw device_raw <> None \/
    has_source_line (Py.readlines first) = false ->
  output_text common_raw first = first /\
  removed_total common_raw first = 0.
Proof.
  intros first Hcond.
  set (ce := load_common common_raw).
  set (src := final_source common_raw device_raw).
  set (secs := device_sections device_raw).
  assert (first = render (strip_blank_tail
                    (source_lines src ++ flat_map (contribution ce) secs)))
    as Hfirst.
  { unfold first, output_text, filter_device. by rewrite process_sections_spec. }
  rewrite Hfirst in Hcond.
  destruct (reparse ce src secs) as [Hfound Hparse];
    [apply device_sections_well_formed | apply device_sections_clean
    | apply final_source_ok | exact Hcond |].
  rewrite <- Hfirst in Hfound, Hparse.
  assert (source_lines (final_source common_raw first) = source_lines src)
    as Hsrc.
  { unfold final_source at 1. rewrite Hfound.
    pose proof (final_source_ok common_raw device_raw) as Hok. fold src in Hok.
    destruct src as [l|] eqn:E; cbn [option_map].
    - destruct Hok as [Hm _]. rewrite (source_lines_some l Hm).
      unfold source_lines.
      replace (truthy (terminated (rstrip l))) with true
        by by destruct (rstrip l).
      by rewrite rstrip_terminated, rstrip_idemp.
    - unfold src, final_source in E.
      destruct (found_source (readlines device_raw)); [done|].
      by rewrite E. }
  unfold output_text, removed_total, filter_device.
  rewrite process_sections_spec. cbn [fst snd].
  fold ce. unfold device_sections at 1 2. rewrite Hparse, Hsrc.
  rewrite contribution_survivors, removed_survivors.
  split; [by rewrite Hfirst|reflexivity].
Qed.

Lemma second_run_changes_nothing_witness :
  output_text partial_common (output_text partial_common partial_device) =
    output_text partial_common partial_device /\
  removed_total partial_common (output_text partial_common partial_device) = 0.
Proof.
  apply (second_run_changes_nothing partial_common partial_device).
  right. by vm_compute.
Defined.

(** * The run as a whole *)

Module MainFacts.
Import Py PyFacts FilterFacts RunFacts.

Lemma writes_app tr1 tr2 : writes (tr1 ++ tr2) = writes tr1 ++ writes tr2.
Proof. apply List.filter_app. Qed.

Lemma writes_prints ls : writes (map Print ls) = [].
Proof. induction ls; [reflexivity|exact IHls]. Qed.

Lemma writes_run_trace c d dry verb rc rd :
  writes (run_trace c d dry verb rc rd) =
  if dry then [] else [OpenWrite d (output_text rc rd)].
Proof.
  unfold run_trace, output_text.
  rewrite <- (filter_device_lines rc rd verb).
  destruct (filter_device rc rd verb) as [[out n] printed]. cbn [fst].
  destruct dry; rewrite !writes_app, !writes_prints; reflexivity.
Qed.

(** Either both paths name regular files, or the validation has an
    error to print. *)
Lemma validation_cases files c d :
  (exists rc rd, files !! c = Some (RegularFile rc) /\
                 files !! d = Some (RegularFile rd) /\
                 is_regular files c && is_regular files d = true) \/
  (exists m, validation_error files c d = Some m /\
             is_regular files c && is_regular files d = false).
Proof.
  unfold validation_error, path_error, is_regular.
  destruct (files !! c) as [[rc|]|]; [|right; eauto..].
  destruct (files !! d) as [[rd|]|]; [left; eauto|right; eauto..].
Qed.

End MainFacts.

Import MainFacts.








(** * The entries *)

Module EntryFacts.
Import Py PyFacts FilterFacts.

Lemma before_hash_comment e comment :
  no_hash e = true -> before_hash (e +:+ String HASH comment) = e.
Proof.
  induction e as [|c e IH]; [reflexivity|]. rewrite sapp_cons. simpl.
  intros [Hc He]%andb_true_iff. apply negb_true_iff in Hc.
  by rewrite Hc, IH.
Qed.

Lemma before_hash_plain e : no_hash e = true -> before_hash e = e.
Proof.
  induction e as [|c e IH]; [reflexivity|]. simpl.
  intros [Hc He]%andb_true_iff. apply negb_true_iff in Hc.
  by rewrite Hc, IH.
Qed.

(** What one loop of [load_common_entries] leaves in the set. *)
Lemma elem_of_add_lines e ls : forall ce,
  e ∈ fold_left add_line ls ce <->
  e ∈ ce \/ (e <> "" /\ exists l, In l ls /\ common_entry l = e).
Proof.
  induction ls as [|l ls IH]; intros ce; cbn [fold_left].
  - split; [by left|]. intros [H|(_ & l & [] & _)]. done.
  - rewrite IH. unfold add_line at 1.
    destruct (truthy (common_entry l)) eqn:E.
    + rewrite elem_of_union, elem_of_singleton. split.
      * intros [[->|H]|(Hne & l' & Hin & He)].
        -- right. split; [by apply truthy_true|]. exists l. split; [by left|done].
        -- by left.
        -- right. split; [done|]. exists l'. split; [by right|done].
      * intros [H|(Hne & l' & [->|Hin] & He)].
        -- left. by right.
        -- left. by left.
        -- right. split; [done|]. by exists l'.
    + apply truthy_false in E. split.
      * intros [H|(Hne & l' & Hin & He)]; [by left|].
        right. split; [done|]. exists l'. split; [by right|done].
      * intros [H|(Hne & l' & [->|Hin] & He)]; [by left|congruence|].
        right. split; [done|]. by exists l'.
Qed.

Lemma elem_of_add_sections e secs : forall ce,
  e ∈ add_sections ce secs <->
  e ∈ ce \/ (e <> "" /\ exists l, In l (all_content secs) /\ common_entry l = e).
Proof.
  unfold add_sections, all_content.
  induction secs as [|s secs IH]; intros ce; cbn [fold_left flat_map].
  - split; [by left|]. intros [H|(_ & l & [] & _)]. done.
  - rewrite IH, elem_of_add_lines. split.
    + intros [[H|(Hne & l & Hin & He)]|(Hne & l & Hin & He)].
      * by left.
      * right. split; [done|]. exists l. split; [|done].
        apply in_or_app. by left.
      * right. split; [done|]. exists l. split; [|done].
        apply in_or_app. by right.
    + intros [H|(Hne & l & Hin & He)]; [by left; left|].
      apply in_app_or in Hin as [Hin|Hin].
      * left. right. split; [done|]. by exists l.
      * right. split; [done|]. by exists l.
Qed.

End EntryFacts.

Import EntryFacts.

(** The filtering removes a device line exactly when its entry is not empty
    and is the entry of a content line of the common file, the entry being
    taken in the same way by [load_common_entries], by
    [process_device_file] and by [show_diff]. *)
Theorem duplicate_iff_common_line (common_raw line : string) :
  common_entry line = device_entry line /\
  (duplicate (load_common common_raw) line = true <->
   Entry line <> "" /\
   exists l, In l (all_content (common_sections common_raw)) /\
             Entry l = Entry line).
Proof.
  split; [unfold common_entry, device_entry; by rewrite item0_split1|].
  unfold duplicate, load_common. rewrite bool_decide_eq_true.
  rewrite elem_of_add_sections, device_entry_Entry.
  fold (common_sections common_raw). split.
  - intros [H|(Hne & l & Hin & He)]; [by apply not_elem_of_empty in H|].
    split; [done|]. exists l. by rewrite <- common_entry_Entry.
  - intros (Hne & l & Hin & He). right. split; [done|].
    exists l. by rewrite common_entry_Entry.
Qed.

(** The text after the first ['#'] of a line plays no part: a line made of
    a text without ['#'], a ['#'] and a comment has the entry of the text
    alone, so two lines that differ by their comments only are removed
    together or kept together. *)
Theorem comment_is_ignored (ce : gset string) (e comment other : string) :
  no_hash e = true ->
  device_entry (e +:+ String Py.HASH comment) = Py.strip e /\
  common_entry (e +:+ String Py.HASH comment) = Py.strip e /\
  device_entry e = Py.strip e /\
  duplicate ce (e +:+ String Py.HASH comment) =
    duplicate ce (e +:+ String Py.HASH other).
Proof.
  intros He.
  assert (forall c, device_entry (e +:+ String HASH c) = strip e) as H.
  { intros c. rewrite device_entry_Entry. unfold Entry.
    by rewrite before_hash_comment. }
  split; [apply H|]. split.
  - rewrite common_entry_Entry. unfold Entry. by rewrite before_hash_comment.
  - split.
    + rewrite device_entry_Entry. unfold Entry. by rewrite before_hash_plain.
    + unfold duplicate. by rewrite !H.
Qed.

Lemma comment_is_ignored_witness :
  device_entry "lib/foo.so  # needed for camera" = "lib/foo.so".
Proof.
  destruct (comment_is_ignored ∅ "lib/foo.so  " " needed for camera" "")
    as [H _]; [reflexivity|].
  exact H.
Defined.

(** Whatever the text of a file, each section of its parse has a header
    that starts with ['#'], and content lines that are not blank and do
    not start with ['#']; headers and content lines have no trailing white
    space and hold no line terminator. *)
Theorem parsed_sections_shape (raw : string) :
  Forall (fun s => well_formed s /\ clean s) (device_sections raw).
Proof.
  pose proof (device_sections_well_formed raw) as Hw.
  pose proof (device_sections_clean raw) as Hc.
  rewrite List.Forall_forall in *. intros s Hs. split; auto.
Qed.

(** * The shape of the output *)

Module ShapeFacts.
Import Py PyFacts ParserFacts ReadFacts FilterFacts RoundTrip OutputFacts
  SurvivorFacts.

Lemma strip_blank_tail_head lines y r :
  strip_blank_tail lines = y :: r -> exists t, lines = y :: t.
Proof.
  destruct lines as [|x t]; [done|]. cbn [strip_blank_tail].
  destruct (strip_blank_tail t).
  - destruct (truthy x); [|done]. intros [= <- _]. eauto.
  - intros [= <- _]. eauto.
Qed.

Lemma no_double_blank_strip lines :
  no_double_blank lines = true ->
  no_double_blank (strip_blank_tail lines) = true.
Proof.
  induction lines as [|x r IH]; [done|]. cbn [no_double_blank].
  intros [Hx Hr]%andb_true_iff. specialize (IH Hr).
  cbn [strip_blank_tail].
  destruct (strip_blank_tail r) as [|y r'] eqn:E.
  - by destruct (truthy x).
  - apply strip_blank_tail_head in E as [t ->].
    cbn [no_double_blank] in *. by rewrite Hx, IH.
Qed.

Lemma no_double_blank_app front back :
  no_double_blank front = true -> no_double_blank back = true ->
  starts_truthy back -> no_double_blank (front ++ back) = true.
Proof.
  intros Hf Hb Hs. induction front as [|x r IH]; [done|].
  cbn [no_double_blank app] in *.
  apply andb_true_iff in Hf as [Hx Hr]. rewrite (IH Hr), andb_true_r.
  destruct r as [|y r]; cbn [app]; [|done].
  destruct back as [|y back]; [done|]. simpl in Hs. rewrite Hs.
  apply orb_true_r.
Qed.

Lemma no_double_blank_block ls :
  Forall (fun l => truthy l = true) ls ->
  no_double_blank (ls ++ [""]) = true.
Proof.
  induction 1 as [|l ls Hl _ IH]; [reflexivity|].
  cbn [app no_double_blank]. rewrite IH, Hl.
  by destruct (ls ++ [""]).
Qed.

Lemma contribution_shape ce s :
  well_formed s ->
  no_double_blank (contribution ce s) = true /\
  starts_truthy (contribution ce s).
Proof.
  intros [Hh Hc]. unfold contribution.
  pose proof (Forall_kept content_line ce _ Hc) as Hk.
  destruct (kept ce (content s)) as [|k ks]; [done|].
  split; [|by apply header_line_truthy].
  rewrite app_comm_cons. apply no_double_blank_block.
  constructor; [by apply header_line_truthy|].
  eapply List.Forall_impl; [|exact Hk]. apply content_line_truthy.
Qed.

Lemma contributions_shape ce secs :
  Forall well_formed secs ->
  no_double_blank (flat_map (contribution ce) secs) = true /\
  starts_truthy (flat_map (contribution ce) secs).
Proof.
  induction 1 as [|s secs Hs _ [IHn IHs]]; [done|]. cbn [flat_map].
  destruct (contribution_shape ce s Hs) as [Hn Hst].
  split; [by apply no_double_blank_app|].
  by destruct (contribution ce s).
Qed.

Lemma last_strip_blank_tail lines :
  strip_blank_tail lines = [] \/
  truthy (List.last (strip_blank_tail lines) "") = true.
Proof.
  induction lines as [|x r IH]; [by left|]. cbn [strip_blank_tail].
  destruct (strip_blank_tail r) as [|y r'] eqn:E.
  - destruct (truthy x) eqn:Hx; [right; exact Hx|by left].
  - right. destruct IH as [|IH]; [done|]. exact IH.
Qed.

(** A filter that rejects the empty line sees the same lines before and
    after the empty lines at the end are removed, and after the lines of
    the source line are set aside. *)
Lemma filter_strip (f : string -> bool) lines :
  f "" = false ->
  List.filter f (strip_blank_tail lines) = List.filter f lines.
Proof.
  intros Hf. induction lines as [|x r IH]; [reflexivity|].
  cbn [strip_blank_tail].
  destruct (strip_blank_tail r) as [|y r'].
  - cbn [List.filter] in *. rewrite <- IH.
    destruct x; [by rewrite Hf|]. cbn [truthy List.filter].
    by destruct (f _).
  - cbn [List.filter] in *. by rewrite IH.
Qed.

Lemma filter_output (f : string -> bool) src body :
  f "" = false ->
  List.filter f (skipn (length (source_lines src))
                       (strip_blank_tail (source_lines src ++ body))) =
  List.filter f body.
Proof.
  intros Hf. rewrite strip_blank_tail_app.
  rewrite <- (filter_strip f body Hf).
  destruct (strip_blank_tail body) as [|y body'].
  - rewrite skipn_all2; [reflexivity|apply length_strip_blank_tail].
  - by rewrite skipn_app, skipn_all, Nat.sub_diag.
Qed.

Lemma filter_header_content ls :
  Forall content_line ls -> List.filter (startswith HASH) ls = [].
Proof.
  induction 1 as [|l ls (_ & Hl & _) _ IH]; [reflexivity|]. simpl.
  simpl in Hl. by rewrite Hl.
Qed.

Lemma filter_header_contributions ce secs :
  Forall well_formed secs ->
  List.filter (startswith HASH) (flat_map (contribution ce) secs) =
  map header (List.filter (survives ce) secs).
Proof.
  induction 1 as [|s secs [[_ Hh] Hc] _ IH]; [reflexivity|].
  cbn [flat_map List.filter]. rewrite List.filter_app, IH.
  unfold survives. rewrite kept_nil. unfold contribution.
  pose proof (Forall_kept content_line ce _ Hc) as Hk.
  destruct (kept ce (content s)) as [|k ks]; [reflexivity|].
  cbn [negb map List.filter]. rewrite Hh.
  rewrite List.filter_app, filter_header_content by done.
  reflexivity.
Qed.

Lemma in_strip_blank_tail_inv x lines :
  In x (strip_blank_tail lines) -> In x lines.
Proof.
  induction lines as [|y r IH]; [done|]. cbn [strip_blank_tail].
  destruct (strip_blank_tail r).
  - destruct (truthy y); [|done]. intros [->|[]]. by left.
  - intros [->|H]; [by left|]. right. by apply IH.
Qed.

(** A line that the sections add is a header, a kept line or the empty
    line. *)
Lemma in_contributions ce secs x :
  Forall well_formed secs ->
  In x (flat_map (contribution ce) secs) ->
  x = "" \/ header_line x \/ (content_line x /\ duplicate ce x = false).
Proof.
  intros Hwf (s & Hs & Hx)%in_flat_map.
  rewrite List.Forall_forall in Hwf. destruct (Hwf s Hs) as [Hh Hc].
  rewrite List.Forall_forall in Hc.
  unfold contribution in Hx.
  destruct (kept ce (content s)) as [|k ks] eqn:E; [done|].
  destruct Hx as [<-|Hx]; [by right; left|].
  apply in_app_or in Hx as [Hx|[<-|[]]]; [|by left].
  rewrite <- E in Hx. apply List.filter_In in Hx as [Hin Hd].
  right. right. split; [by apply Hc|]. by apply negb_true_iff.
Qed.

End ShapeFacts.

Import ShapeFacts.

(** The output lines never end with an empty line and never hold two empty
    lines in a row. *)
Theorem output_has_no_spare_blank_line
    (common_raw device_raw : string) (verb : bool) :
  let out := (filter_device common_raw device_raw verb).1.1 in
  (out = [] \/ Py.truthy (List.last out "") = true) /\
  no_double_blank out = true.
Proof.
  intros out. unfold out, filter_device.
  rewrite process_sections_spec. cbn [fst].
  split; [apply last_strip_blank_tail|].
  apply no_double_blank_strip.
  destruct (contributions_shape (load_common common_raw)
              (device_sections device_raw)
              (device_sections_well_formed device_raw)) as [Hn Hs].
  apply no_double_blank_app; [|done..].
  pose proof (final_source_ok common_raw device_raw) as Hok.
  destruct (final_source common_raw device_raw) as [l|]; [|reflexivity].
  destruct Hok as [Hm _]. rewrite source_lines_some by done.
  simpl. by rewrite marker_truthy.
Qed.

(** The headers of the output are the headers of the sections of the
    device file that keep a content line, in the order of the file. *)
Theorem surviving_headers_in_order
    (ce : gset string) (verb : bool) (src : option string) (raw : string) :
  let secs := device_sections raw in
  output_headers src (process_sections ce verb src secs).1.1 =
  map header (List.filter (survives ce) secs).
Proof.
  intros secs. rewrite process_sections_spec. cbn [fst].
  unfold output_headers. rewrite filter_output by reflexivity.
  apply filter_header_contributions, device_sections_well_formed.
Qed.

(** A device file without any header line loses all its lines: it has no
    section, nothing is counted as removed, and the output is the source
    line alone when there is one, and no line otherwise. *)
Theorem headerless_device_is_emptied
    (common_raw device_raw : string) (verb : bool) :
  Forall (fun l => is_header l = false) (body_lines (Py.readlines device_raw)) ->
  device_sections device_raw = [] /\
  filter_device common_raw device_raw verb =
    (match final_source common_raw device_raw with
     | Some l => [Py.rstrip l]
     | None => []
     end, 0, []).
Proof.
  intros H.
  assert (device_sections device_raw = []) as Hs.
  { unfold device_sections.
    rewrite <- (app_nil_r (body_lines _)).
    change [] with (flat_map block_lines []) at 1.
    by rewrite parse_lines_cut. }
  split; [exact Hs|].
  unfold filter_device. rewrite Hs, process_sections_spec.
  cbn [flat_map removed_lines removal_log length]. rewrite app_nil_r.
  pose proof (final_source_ok common_raw device_raw) as Hok.
  destruct (final_source common_raw device_raw) as [l|]; [|reflexivity].
  destruct Hok as [Hm _]. rewrite source_lines_some by done.
  by rewrite strip_blank_tail_truthy by by apply marker_truthy.
Qed.

Lemma headerless_device_is_emptied_witness :
  output_text stock_common headerless_device = nl.
Proof.
  destruct (headerless_device_is_emptied stock_common headerless_device false)
    as [_ H]; [by repeat constructor|].
  unfold output_text. by rewrite H.
Defined.

(** * What a second run can remove *)

Module RerunFacts.
Import Py PyFacts ParserFacts ReadFacts FilterFacts RoundTrip OutputFacts
  SurvivorFacts ShapeFacts.

Lemma filter_none {A} (f : A -> bool) (l : list A) :
  (forall x, In x l -> f x = false) -> List.filter f l = [].
Proof.
  induction l as [|x l IH]; [done|]. intros H. simpl.
  rewrite (H x) by by left. apply IH. intros y Hy. apply H. by right.
Qed.

(** The lines a second run parses are lines that the sections added to the
    first output, or empty lines. *)
Lemma body_of_output ce src secs l0 :
  Forall clean secs -> source_ok src ->
  let body := flat_map (contribution ce) secs in
  let out := strip_blank_tail (source_lines src ++ body) in
  In l0 (body_lines (readlines (render out))) ->
  exists x, (x = "" \/ In x body) /\ l0 = terminated x.
Proof.
  intros Hclean Hsrc body out Hin.
  pose proof (contribution_clean ce secs Hclean) as Hnl. fold body in Hnl.
  destruct src as [l|].
  - destruct Hsrc as [Hm Hl].
    assert (out = rstrip l :: strip_blank_tail ("" :: body)) as Hout.
    { unfold out. rewrite source_lines_some by done.
      cbn [app]. by rewrite strip_blank_tail_truthy by by apply marker_truthy. }
    assert (readlines (render out) = map terminated out) as Hread.
    { apply readlines_render; [by rewrite Hout|].
      rewrite Hout. constructor; [done|].
      apply Forall_strip_blank_tail. by constructor. }
    rewrite Hread, Hout in Hin. cbn [map] in Hin.
    unfold body_lines, has_source_line in Hin.
    cbn [truthy_list item0 hd andb tl] in Hin.
    rewrite marker_kept in Hin by done.
    apply in_map_iff in Hin as (x & <- & Hx).
    apply in_strip_blank_tail_inv in Hx.
    exists x. split; [|done]. destruct Hx as [<-|Hx]; [by left|by right].
  - apply body_lines_in in Hin. cbn [source_lines app] in out.
    destruct out as [|y r] eqn:Hout.
    + rewrite readlines_render_nil in Hin. destruct Hin as [<-|[]].
      exists "". split; [by left|done].
    + rewrite readlines_render in Hin; [|done|].
      * apply in_map_iff in Hin as (x & <- & Hx).
        rewrite <- Hout in Hx. apply in_strip_blank_tail_inv in Hx.
        exists x. split; [by right|done].
      * rewrite <- Hout. by apply Forall_strip_blank_tail.
Qed.

End RerunFacts.

Import RerunFacts.

(** Whatever the two files, a second run on the output of a first run,
    against the same common file, removes no line. *)
Theorem second_run_removes_nothing (common_raw device_raw : string) :
  removed_total common_raw (output_text common_raw device_raw) = 0.
Proof.
  set (ce := load_common common_raw).
  set (src := final_source common_raw device_raw).
  set (secs := device_sections device_raw).
  set (first := output_text common_raw device_raw).
  assert (first = render (strip_blank_tail
                    (source_lines src ++ flat_map (contribution ce) secs)))
    as Hfirst.
  { unfold first, output_text, filter_device. by rewrite process_sections_spec. }
  unfold removed_total, filter_device. rewrite process_sections_spec.
  cbn [fst snd]. fold ce.
  enough (removed_lines ce (device_sections first) = []) as -> by reflexivity.
  unfold removed_lines, removed. rewrite flat_map_filter.
  apply filter_none. intros l Hl.
  assert (content_line l) as Hcl.
  { unfold all_content in Hl. apply in_flat_map in Hl as (s & Hs & Hl).
    pose proof (device_sections_well_formed first) as Hwf.
    rewrite List.Forall_forall in Hwf. destruct (Hwf s Hs) as [_ Hc].
    rewrite List.Forall_forall in Hc. by apply Hc. }
  pose proof (sections_of_sources (body_lines (readlines first))) as Hsrc.
  apply Forall_app in Hsrc as [_ Hsrc].
  unfold device_sections in Hl. rewrite parse_lines_sections_of in Hl.
  rewrite List.Forall_forall in Hsrc.
  destruct (Hsrc l Hl) as (l0 & Hin & ->).
  rewrite Hfirst in Hin.
  apply body_of_output in Hin as (x & Hx & ->);
    [|apply device_sections_clean|apply final_source_ok].
  rewrite rstrip_terminated in Hcl |- *.
  destruct Hx as [->|Hx]; [by destruct Hcl as (_ & _ & ?)|].
  apply in_contributions in Hx; [|apply device_sections_well_formed].
  destruct Hx as [->|[[Hfix Hh]|[[Hfix _] Hd]]].
  - by destruct Hcl as (_ & _ & ?).
  - rewrite Hfix in Hcl. destruct Hcl as (_ & Hn & _). congruence.
  - by rewrite Hfix.
Qed.

(** * The outcome and the trace of a run *)

Module TraceFacts.
Import Py PyFacts FilterFacts RunFacts MainFacts.



Lemma reads_app tr1 tr2 : reads (tr1 ++ tr2) = reads tr1 ++ reads tr2.
Proof. apply List.filter_app. Qed.

Lemma reads_prints ls : reads (map Print ls) = [].
Proof. induction ls; [reflexivity|exact IHls]. Qed.

Lemma reads_run_trace c d dry verb rc rd :
  reads (run_trace c d dry verb rc rd) =
  OpenRead c :: OpenRead d :: (if dry then [OpenRead d] else []).
Proof.
  unfold run_trace.
  destruct (filter_device rc rd verb) as [[out n] printed].
  destruct dry; rewrite !reads_app, !reads_prints; cbn;
    rewrite ?reads_app, ?reads_prints; reflexivity.
Qed.




End TraceFacts.

Import TraceFacts.




(** The verbose flag changes only what is printed: the exit status, the
    files, the set of common entries, the source line, the files read and
    the file written are those of the run without it. *)
Theorem verbose_changes_only_prints
    (c d : string) (dry verb : bool) (files : gmap string node) :
  let r := main c d dry verb files in
  let q := main c d dry false files in
  r.1 = q.1 /\ fs r.2 = fs q.2 /\
  common_entries (self r.2) = common_entries (self q.2) /\
  source_line (self r.2) = source_line (self q.2) /\
  reads (trace r.2) = reads (trace q.2) /\
  writes (trace r.2) = writes (trace q.2).
Proof.
  intros r q. unfold r, q.
  destruct (validation_cases files c d)
    as [(rc & rd & Hc & Hd & _)|(m & Hm & _)].
  - rewrite !(main_valid c d dry _ files rc rd Hc Hd).
    cbn [fst snd self fs trace common_entries source_line].
    by rewrite !reads_run_trace, !writes_run_trace.
  - by rewrite !(main_invalid c d dry _ files m Hm).
Qed.

(** A run on two regular files reads the common file once and then the
    device file; a dry run reads the device file a second time, to show
    the changes; a run that fails the validation reads nothing. *)
Theorem files_read_in_order
    (c d : string) (dry verb : bool) (files : gmap string node) :
  reads (trace (main c d dry verb files).2) =
  if is_regular files c && is_regular files d
  then OpenRead c :: OpenRead d :: (if dry then [OpenRead d] else [])
  else [].
Proof.
  destruct (validation_cases files c d)
    as [(rc & rd & Hc & Hd & ->)|(m & Hm & ->)].
  - rewrite (main_valid c d dry verb files rc rd Hc Hd). cbn [snd trace].
    apply reads_run_trace.
  - by rewrite (main_invalid c d dry verb files m Hm).
Qed.



(** * The preview of a dry run and the account of the lines *)

Module AccountFacts.
Import Py PyFacts FilterFacts.

Lemma length_kept_removed ce ls :
  length (kept ce ls) + length (removed ce ls) = length ls.
Proof.
  unfold kept, removed. induction ls as [|l ls IH]; [reflexivity|]. simpl.
  destruct (duplicate ce l); simpl; lia.
Qed.

Lemma length_kept_removed_lines ce secs :
  length (kept_lines ce secs) + length (removed_lines ce secs) =
  length (all_content secs).
Proof.
  unfold kept_lines, removed_lines, all_content.
  induction secs as [|s secs IH]; [reflexivity|]. cbn [flat_map].
  rewrite !length_app. pose proof (length_kept_removed ce (content s)). lia.
Qed.

Lemma Entry_of_header line : startswith HASH line = true -> Entry line = "".
Proof.
  destruct line as [|c r]; [done|]. simpl. intros H.
  unfold Entry. simpl. by rewrite H.
Qed.

End AccountFacts.

Import AccountFacts.

(** The lines [show_diff] lists are the lines of the old content, as
    [splitlines] cuts it, whose entry is in the set of common entries; a
    line that starts with ['#'] is never one of them. *)
Theorem diff_lists_lines_with_common_entries (common_raw old p : string) :
  let ce := load_common common_raw in
  (In p (diff_lines ce old) <->
   exists line, In line (Py.splitlines old) /\ Entry line ∈ ce /\
                p = diff_line line) /\
  (forall line, Entry line ∈ ce -> Py.startswith Py.HASH line = false).
Proof.
  intros ce. split.
  - unfold diff_lines. rewrite in_flat_map. split.
    + intros (line & Hin & Hp). exists line. split; [done|].
      rewrite common_entry_Entry in Hp.
      destruct (bool_decide (Entry line ∈ ce)) eqn:E; [|done].
      apply bool_decide_eq_true in E. destruct Hp as [<-|[]]. by split.
    + intros (line & Hin & He & ->). exists line. split; [done|].
      rewrite common_entry_Entry, bool_decide_eq_true_2 by done. by left.
  - intros line He. destruct (startswith HASH line) eqn:Hh; [|done].
    rewrite (Entry_of_header line Hh) in He.
    exfalso. revert He. apply add_sections_no_empty. set_solver.
Qed.

(** Every content line of the device file is either an entry line of the
    output or counted as removed: the two numbers add up to the number of
    content lines. *)
Theorem content_lines_are_kept_or_counted
    (ce : gset string) (verb : bool) (src : option string) (raw : string) :
  let secs := device_sections raw in
  let r := process_sections ce verb src secs in
  length (output_entries src r.1.1) + r.1.2 = length (all_content secs).
Proof.
  intros secs r. unfold r. rewrite process_sections_spec. cbn [fst snd].
  rewrite output_entries_spec, filter_entry_contributions
    by apply device_sections_well_formed.
  apply length_kept_removed_lines.
Qed.

Lemma diff_lists_lines_with_common_entries_witness :
  Py.startswith Py.HASH "lib/audio.so  # hal" = false.
Proof.
  destruct (diff_lists_lines_with_common_entries stock_common "" "") as [_ H].
  apply H. by vm_compute.
Defined.
